(** * rls-vscode: running the RLS through rustup

    A shallow embedding of [src/rustup.ts]: the probes that read rustup's
    output, the installers, the bootstrap sequence [runRlsViaRustup] and the
    maintenance action [rustupUpdate], with the properties of their
    specification.

    JavaScript strings are sequences of UTF-16 code units; the external
    collaborators (command runner, consent prompt, spinner, console, process
    spawn) are recorded in a trace of events. *)

From Stdlib Require Import ZArith NArith List String Ascii Lia Bool.
From stdpp Require Import base list gmap.
Import ListNotations.

Local Open Scope Z_scope.

(** ** JavaScript strings *)

Module JS.

(** A string is the list of its UTF-16 code units. *)
Definition code_unit : Type := N.
Definition jsstring : Type := list N.

(** A literal of the source, all of whose characters are ASCII. *)
Definition js (s : string) : jsstring :=
  map N_of_ascii (list_ascii_of_string s).

(** [LineTerminator] of ECMAScript: LF, CR, LS (U+2028), PS (U+2029). *)
Definition is_line_terminator (c : code_unit) : bool :=
  (c =? 10)%N || (c =? 13)%N || (c =? 8232)%N || (c =? 8233)%N.

Fixpoint starts_with (pat s : jsstring) : bool :=
  match pat, s with
  | [], _ => true
  | p :: pat', c :: s' => (p =? c)%N && starts_with pat' s'
  | _ :: _, [] => false
  end.

Fixpoint indexOf_from (pat s : jsstring) (i : Z) : Z :=
  if starts_with pat s then i
  else match s with
       | [] => -1
       | _ :: s' => indexOf_from pat s' (i + 1)
       end.

(** [s.indexOf(pat)]: the least position at which [pat] occurs, or -1. *)
Definition indexOf (s pat : jsstring) : Z := indexOf_from pat s 0.

(** [s] contains [pat] as a substring. *)
Definition contains (s pat : jsstring) : Prop :=
  exists pre post, s = pre ++ pat ++ post.

End JS.

Import JS.

(** ** Regular expressions

    The fragment of ECMAScript patterns that the source uses: characters,
    [.], a greedy star over a one-character atom, sequence, alternation and
    the assertions [^] and [$].  Matching follows the continuation-passing
    formulation of the language definition: a matcher receives the last code
    unit consumed (for [^]), the rest of the input and a continuation. *)

Module Regex.

Inductive atom : Type :=
| AChar (c : code_unit)
| ADot.

Inductive regex : Type :=
| REmpty
| RAtom (a : atom)
| RStar (a : atom)
| RSeq (r1 r2 : regex)
| RAlt (r1 r2 : regex)
| RBol
| REol.

Definition atom_accepts (a : atom) (c : code_unit) : bool :=
  match a with
  | AChar x => (x =? c)%N
  | ADot => negb (is_line_terminator c)
  end.

(** [^]: at the start of the input or, with the [m] flag, after a line
    terminator. *)
Definition at_bol (multiline : bool) (prev : option code_unit) : bool :=
  match prev with
  | None => true
  | Some c => multiline && is_line_terminator c
  end.

(** [$]: at the end of the input or, with the [m] flag, before a line
    terminator. *)
Definition at_eol (multiline : bool) (rest : jsstring) : bool :=
  match rest with
  | [] => true
  | c :: _ => multiline && is_line_terminator c
  end.

Definition cont : Type := option code_unit -> jsstring -> bool.

(** Greedy repetition of an atom: consume while possible, then back off. *)
Fixpoint star_match (a : atom) (prev : option code_unit) (s : jsstring)
         (k : cont) : bool :=
  match s with
  | c :: s' =>
      (if atom_accepts a c then star_match a (Some c) s' k else false)
      || k prev s
  | [] => k prev s
  end.

Fixpoint rmatch (multiline : bool) (r : regex) (prev : option code_unit)
         (s : jsstring) (k : cont) : bool :=
  match r with
  | REmpty => k prev s
  | RAtom a =>
      match s with
      | c :: s' => if atom_accepts a c then k (Some c) s' else false
      | [] => false
      end
  | RStar a => star_match a prev s k
  | RSeq r1 r2 =>
      rmatch multiline r1 prev s
             (fun prev' s' => rmatch multiline r2 prev' s' k)
  | RAlt r1 r2 =>
      rmatch multiline r1 prev s k || rmatch multiline r2 prev s k
  | RBol => if at_bol multiline prev then k prev s else false
  | REol => if at_eol multiline s then k prev s else false
  end.

Definition accept : cont := fun _ _ => true.

Fixpoint search_from (multiline : bool) (r : regex)
         (prev : option code_unit) (s : jsstring) (i : Z) : Z :=
  if rmatch multiline r prev s accept then i
  else match s with
       | [] => -1
       | c :: s' => search_from multiline r (Some c) s' (i + 1)
       end.

(** [s.search(/r/)] and [s.search(/r/m)]: the position of the first match,
    or -1. *)
Definition search (multiline : bool) (s : jsstring) (r : regex) : Z :=
  search_from multiline r None s 0.

(** A literal run of characters. *)
Definition lit (w : jsstring) : regex :=
  fold_right (fun c r => RSeq (RAtom (AChar c)) r) REmpty w.

(** *** What a pattern denotes

    [den m r prev w post]: [r] matches exactly the word [w] when [w] comes
    after the code unit [prev] and before [post]. *)

Definition last_unit (prev : option code_unit) (w : jsstring)
  : option code_unit :=
  fold_left (fun _ c => Some c) w prev.

Fixpoint den (multiline : bool) (r : regex) (prev : option code_unit)
         (w post : jsstring) : Prop :=
  match r with
  | REmpty => w = []
  | RAtom a => exists c, w = [c] /\ atom_accepts a c = true
  | RStar a => Forall (fun c => atom_accepts a c = true) w
  | RSeq r1 r2 =>
      exists w1 w2, w = w1 ++ w2 /\
        den multiline r1 prev w1 (w2 ++ post) /\
        den multiline r2 (last_unit prev w1) w2 post
  | RAlt r1 r2 => den multiline r1 prev w post \/ den multiline r2 prev w post
  | RBol => w = [] /\ at_bol multiline prev = true
  | REol => w = [] /\ at_eol multiline post = true
  end.

(** The lines of a text, as [^] and [$] delimit them under the [m] flag. *)
Fixpoint js_lines (s : jsstring) : list jsstring :=
  match s with
  | [] => [[]]
  | c :: s' =>
      if is_line_terminator c then [] :: js_lines s'
      else match js_lines s' with
           | l :: ls => (c :: l) :: ls
           | [] => [[c]]
           end
  end.

(** [l] is a line of [s]: a stretch without line terminator that starts where
    [^] holds and ends where [$] holds. *)
Definition line_of (s l : jsstring) : Prop :=
  exists pre post, s = pre ++ l ++ post
    /\ Forall (fun c => is_line_terminator c = false) l
    /\ at_bol true (last_unit None pre) = true
    /\ at_eol true post = true.

End Regex.

Import Regex.

(** ** The host: events, answers and the monad of the embedding *)

Module Host.

(** What [new Error(message)] builds, and what a rejected promise carries.
    The command runner rejects with an error of its own making. *)
Record JsError : Type := new_Error { message : jsstring }.

(** The resolved value of [execChildProcess]. *)
Record ExecResult : Type := { stdout : jsstring; stderr : jsstring }.

(** The value [child_process.spawn] returns: the handle of the process,
    which remembers what it was started with. *)
Record ChildProcess : Type := {
  spawn_command : jsstring;
  spawn_args : list jsstring;
  spawn_env : gmap jsstring jsstring
}.

Inductive logged : Type :=
| LogString (s : jsstring)
| LogError (e : JsError).

(** Calls to the collaborators, in the order in which they happen. *)
Inductive event : Type :=
| StartSpinner (msg : jsstring)
| StopSpinner (msg : jsstring)
| ConsoleLog (v : logged)
| ShowErrorMessage (msg : jsstring)
| ShowInformationMessage (msg : jsstring) (items : list jsstring)
| ExecChildProcess (command : jsstring)
| Spawn (p : ChildProcess).

(** The answers of the outside world.  Each may depend on everything that
    happened before the call: installing a toolchain changes what a later
    listing prints. *)
Record world : Type := {
  run_command : list event -> jsstring -> JsError + ExecResult;
  clicked_item : list event -> jsstring -> list jsstring -> option jsstring
}.

Inductive outcome (A : Type) : Type :=
| Returned (a : A)
| Threw (e : JsError).
Arguments Returned {A} a.
Arguments Threw {A} e.

(** A computation reads the history of the run so far and yields the events
    it adds together with its outcome. *)
Definition M (A : Type) : Type := list event -> list event * outcome A.

Definition ret {A} (a : A) : M A := fun _ => ([], Returned a).

Definition throw {A} (e : JsError) : M A := fun _ => ([], Threw e).

Definition bind {A B} (m : M A) (k : A -> M B) : M B :=
  fun h =>
    match m h with
    | (n1, Threw e) => (n1, Threw e)
    | (n1, Returned a) =>
        match k a (h ++ n1) with
        | (n2, r) => (n1 ++ n2, r)
        end
    end.

(** [try { m } catch (e) { handler e }] *)
Definition try_catch {A} (m : M A) (handler : JsError -> M A) : M A :=
  fun h =>
    match m h with
    | (n1, Returned a) => (n1, Returned a)
    | (n1, Threw e) =>
        match handler e (h ++ n1) with
        | (n2, r) => (n1 ++ n2, r)
        end
    end.

Definition emit (e : event) : M unit := fun _ => ([e], Returned tt).

#[global] Instance M_ret : MRet M := @ret.
#[global] Instance M_bind : MBind M := fun A B k m => bind m k.

Definition startSpinner (msg : jsstring) : M unit := emit (StartSpinner msg).
Definition stopSpinner (msg : jsstring) : M unit := emit (StopSpinner msg).
Definition console_log (v : logged) : M unit := emit (ConsoleLog v).
Definition showErrorMessage (msg : jsstring) : M unit :=
  emit (ShowErrorMessage msg).

Section Collaborators.
Variable w : world.

Definition execChildProcess (command : jsstring) : M ExecResult :=
  fun h =>
    ([ExecChildProcess command],
     match run_command w h command with
     | inl e => Threw e
     | inr r => Returned r
     end).

Definition showInformationMessage (msg : jsstring) (items : list jsstring)
  : M (option jsstring) :=
  fun h =>
    ([ShowInformationMessage msg items],
     Returned (clicked_item w h msg items)).

Definition spawn (command : jsstring) (args : list jsstring)
           (env : gmap jsstring jsstring) : M ChildProcess :=
  let p := {| spawn_command := command; spawn_args := args;
              spawn_env := env |} in
  fun _ => ([Spawn p], Returned p).
End Collaborators.

End Host.

Import Host.

(** ** [src/rustup.ts] *)

Module Rustup.

Section WithWorld.
Variable w : world.

Definition rustupUpdate : M unit :=
  startSpinner (js "Updating RLS...");;
  try_catch
    (r ← execChildProcess w (js "rustup update");
     if indexOf (stdout r) (js "unchanged") >? -1 then
       stopSpinner (js "Up to date.")
     else
       stopSpinner
         (js "Up to date. Restart extension for changes to take effect."))
    (fun e =>
       console_log (LogError e);;
       stopSpinner (js "An error occurred whilst trying to update.")).

Definition hasNightlyToolchain : M bool :=
  try_catch
    (r ← execChildProcess w (js "rustup toolchain list");
     let hasNightly := indexOf (stdout r) (js "nightly") >? -1 in
     mret hasNightly)
    (fun e =>
       console_log (LogError e);;
       showErrorMessage
         (js "Rustup not available. Install from https://www.rustup.rs/");;
       throw e).

Definition tryToInstallNightlyToolchain : M unit :=
  startSpinner (js "Installing nightly toolchain...");;
  try_catch
    (r ← execChildProcess w (js "rustup toolchain install nightly");
     console_log (LogString (stdout r));;
     console_log (LogString (stderr r));;
     stopSpinner (js "Nightly toolchain installed successfully"))
    (fun e =>
       console_log (LogError e);;
       showErrorMessage (js "Could not install nightly toolchain");;
       stopSpinner (js "Could not install nightly toolchain");;
       throw e).

Definition checkForNightly : M unit :=
  hasNightly ← hasNightlyToolchain;
  if hasNightly : bool then mret tt
  else
    clicked ← showInformationMessage w
                (js "Nightly toolchain not installed. Install?")
                [js "Yes"];
    if bool_decide (clicked = Some (js "Yes")) then
      tryToInstallNightlyToolchain
    else throw (new_Error []).

(** The three patterns of [hasRlsComponents] differ in the name only:
    [/^<name>.* \((default|installed)\)$/m]. *)
Definition component_pattern (name : jsstring) : regex :=
  RSeq RBol
    (RSeq (lit name)
       (RSeq (RStar ADot)
          (RSeq (lit (js " ("))
             (RSeq (RAlt (lit (js "default")) (lit (js "installed")))
                (RSeq (lit (js ")")) REol))))).

(** The test of [hasRlsComponents] on the output of the listing. *)
Definition components_listed (out : jsstring) : bool :=
  if (search true out (component_pattern (js "rls")) =? -1)
     || (search true out (component_pattern (js "rust-analysis")) =? -1)
     || (search true out (component_pattern (js "rust-src")) =? -1)
  then false
  else true.

Definition hasRlsComponents : M bool :=
  try_catch
    (r ← execChildProcess w
           (js "rustup component list --toolchain nightly");
     mret (components_listed (stdout r)))
    (fun e =>
       console_log (LogError e);;
       showErrorMessage
         (js "Unexpected error initialising RLS - error running rustup");;
       throw e).

(** The local function [tryFn] of [installRls]: it never throws, the
    error is its result. *)
Definition tryFn (component : jsstring) : M (option JsError) :=
  try_catch
    (r ← execChildProcess w
           (js "rustup component add " ++ component
              ++ js " --toolchain nightly");
     console_log (LogString (stdout r));;
     console_log (LogString (stderr r));;
     mret None)
    (fun _e =>
       showErrorMessage
         (js "Could not install RLS component (" ++ component ++ js ")");;
       let err :=
         new_Error (js "installing " ++ component ++ js " failed") in
       mret (Some err)).

(** One block [{ const e = await tryFn(c); if (e !== null) ... }]. *)
Definition install_step (component : jsstring) : M unit :=
  e ← tryFn component;
  match e with
  | Some err => stopSpinner (js "Could not install RLS");; throw err
  | None => mret tt
  end.

Definition installRls : M unit :=
  startSpinner (js "Installing RLS components");;
  install_step (js "rust-analysis");;
  install_step (js "rust-src");;
  console_log (LogString (js "install rls"));;
  install_step (js "rls");;
  stopSpinner (js "RLS components installed successfully").

Definition checkForRls : M unit :=
  hasRls ← hasRlsComponents;
  if hasRls : bool then mret tt
  else
    clicked ← showInformationMessage w (js "RLS not installed. Install?")
                [js "Yes"];
    if bool_decide (clicked = Some (js "Yes")) then installRls
    else throw (new_Error []).

Definition runRlsViaRustup (env : gmap jsstring jsstring)
  : M ChildProcess :=
  checkForNightly;;
  checkForRls;;
  spawn (js "rustup") [js "run"; js "nightly"; js "rls"] env.

End WithWorld.

End Rustup.

Import Rustup.


(** ** Vocabulary of the properties *)

Module Props.

(** The command lines of the source. *)
Definition cmd_update : jsstring := js "rustup update".
Definition cmd_toolchain_list : jsstring := js "rustup toolchain list".
Definition cmd_toolchain_install : jsstring :=
  js "rustup toolchain install nightly".
Definition cmd_component_list : jsstring :=
  js "rustup component list --toolchain nightly".
Definition cmd_component_add (component : jsstring) : jsstring :=
  js "rustup component add " ++ component ++ js " --toolchain nightly".

(** The components that [hasRlsComponents] looks for, and the order in which
    [installRls] adds them. *)
Definition required_components : list jsstring :=
  [js "rls"; js "rust-analysis"; js "rust-src"].
Definition install_order : list jsstring :=
  [js "rust-analysis"; js "rust-src"; js "rls"].

Definition install_error (component : jsstring) : JsError :=
  new_Error (js "installing " ++ component ++ js " failed").

(** The commands handed to the command runner, in order. *)
Definition commands (t : list event) : list jsstring :=
  omap (fun e => match e with ExecChildProcess c => Some c | _ => None end) t.

Definition spawned (t : list event) : list ChildProcess :=
  omap (fun e => match e with Spawn p => Some p | _ => None end) t.

Definition spinner_starts (t : list event) : list jsstring :=
  omap (fun e => match e with StartSpinner m => Some m | _ => None end) t.

Definition spinner_stops (t : list event) : list jsstring :=
  omap (fun e => match e with StopSpinner m => Some m | _ => None end) t.

Definition diagnostics (t : list event) : list jsstring :=
  omap (fun e => match e with ShowErrorMessage m => Some m | _ => None end) t.

Definition succeeded (a : JsError + ExecResult) : bool :=
  match a with inl _ => false | inr _ => true end.

(** The commands of a trace, each with whether the command runner carried it
    out, the runner being asked at the history in which the call was made. *)
Fixpoint attempts (w : world) (h t : list event) : list (jsstring * bool) :=
  match t with
  | [] => []
  | ExecChildProcess c :: t' =>
      (c, succeeded (run_command w h c))
        :: attempts w (h ++ [ExecChildProcess c]) t'
  | e :: t' => attempts w (h ++ [e]) t'
  end.

Definition is_install_command (c : jsstring) : bool :=
  bool_decide (c = cmd_toolchain_install)
  || bool_decide (c ∈ map cmd_component_add install_order).

(** An event that only the steps after the toolchain step produce. *)
Definition after_toolchain_step (e : event) : bool :=
  match e with
  | Spawn _ => true
  | ExecChildProcess c =>
      bool_decide (c = cmd_component_list)
      || bool_decide (c ∈ map cmd_component_add install_order)
  | _ => false
  end.

Definition is_spawn (e : event) : bool :=
  match e with Spawn _ => true | _ => false end.

(** The spinner is started first and stopped last, once each. *)
Definition spinner_started_then_stopped (t : list event) : Prop :=
  exists m1 mid m2,
    t = StartSpinner m1 :: mid ++ [StopSpinner m2]
    /\ spinner_starts mid = [] /\ spinner_stops mid = [].

(** A line that names the component and ends in the annotation of an
    installed one, a space before the parenthesis:
    [^<name>.* \((default|installed)\)$]. *)
Definition line_shows_installed (name line : jsstring) : Prop :=
  exists mid, line = name ++ mid ++ js " (default)"
           \/ line = name ++ mid ++ js " (installed)".

Definition components_present (out : jsstring) : Prop :=
  forall name, name ∈ required_components ->
    exists line, line ∈ js_lines out /\ line_shows_installed name line.

(** The pattern as the specification writes it, with no space before the
    parenthesis: [^<name>.*\((default|installed)\)$]. *)
Definition spec_component_pattern (name : jsstring) : regex :=
  RSeq RBol
    (RSeq (lit name)
       (RSeq (RStar ADot)
          (RSeq (lit (js "("))
             (RSeq (RAlt (lit (js "default")) (lit (js "installed")))
                (RSeq (lit (js ")")) REol))))).

(** [line] matches [/r/]. *)
Definition matches_pattern (line : jsstring) (r : regex) : bool :=
  negb (search false line r =? -1).

(** Each required component has a line that matches its pattern. *)
Definition components_match (pattern : jsstring -> regex) (out : jsstring)
  : Prop :=
  forall name, name ∈ required_components ->
    exists line, line ∈ js_lines out
      /\ matches_pattern line (pattern name) = true.

Definition spec_components_present (out : jsstring) : Prop :=
  components_match spec_component_pattern out.

(** The subject of an install. *)
Inductive subject : Type :=
| Toolchain
| Component (name : jsstring).

(** The error of a failed install tells which subject failed: the subject
    can be read off the error. *)
Definition install_errors_identify_subject : Prop :=
  exists subject_of : JsError -> subject,
    (forall w h t e,
        tryToInstallNightlyToolchain w h = (t, Threw e) ->
        subject_of e = Toolchain)
    /\ (forall w h t e,
        installRls w h = (t, Threw e) ->
        exists c, last (commands t) = Some (cmd_component_add c)
                  /\ subject_of e = Component c).

(** The process that [runRlsViaRustup] spawns: [rustup run nightly rls]. *)
Definition rls_process (env : gmap jsstring jsstring) : ChildProcess :=
  {| spawn_command := js "rustup";
     spawn_args := [js "run"; js "nightly"; js "rls"];
     spawn_env := env |}.

(** The trace of a run in which both probes answer "present". *)
Definition ready_trace (env : gmap jsstring jsstring) : list event :=
  [ExecChildProcess (js "rustup toolchain list");
   ExecChildProcess (js "rustup component list --toolchain nightly");
   Spawn (rls_process env)].

Definition toolchain_offer : event :=
  ShowInformationMessage (js "Nightly toolchain not installed. Install?")
                         [js "Yes"].

(** *** Some worlds *)

Definition LF : code_unit := 10%N.

Definition ok (out : jsstring) : JsError + ExecResult :=
  inr {| stdout := out; stderr := [] |}.

(** Everything is installed already. *)
Definition listing_toolchains : jsstring :=
  js "stable-x86_64" ++ [LF] ++ js "nightly-x86_64 (default)" ++ [LF].

Definition listing_components : jsstring :=
  js "cargo-x86_64-unknown-linux-gnu (default)" ++ [LF]
  ++ js "rls-x86_64-unknown-linux-gnu (installed)" ++ [LF]
  ++ js "rust-analysis-x86_64-unknown-linux-gnu (installed)" ++ [LF]
  ++ js "rust-src (installed)" ++ [LF]
  ++ js "rust-docs-x86_64-unknown-linux-gnu (available)" ++ [LF].

Definition w_ready : world := {|
  run_command := fun _ c =>
    if bool_decide (c = cmd_toolchain_list) then ok listing_toolchains
    else if bool_decide (c = cmd_component_list) then ok listing_components
    else if bool_decide (c = cmd_update) then
      ok (js "info: checking for self-updates" ++ [LF]
          ++ js "info: toolchain 'nightly-x86_64' unchanged" ++ [LF])
    else ok [];
  clicked_item := fun _ _ _ => None
|}.

(** Only the stable toolchain is there, and the user dismisses the offer. *)
Definition w_declined : world := {|
  run_command := fun _ c =>
    if bool_decide (c = cmd_toolchain_list) then
      ok (js "stable-x86_64 (default)" ++ [LF])
    else ok [];
  clicked_item := fun _ _ _ => None
|}.

(** rustup is not there: every command fails the same way. *)
Definition e_not_found : JsError :=
  new_Error (js "Command failed: /bin/sh: rustup: not found").

Definition w_no_rustup : world := {|
  run_command := fun _ _ => inl e_not_found;
  clicked_item := fun _ _ _ => Some (js "Yes")
|}.

(** Nothing is installed, the user accepts every offer, and adding [rust-src]
    fails. *)
Definition w_src_fails : world := {|
  run_command := fun _ c =>
    if bool_decide (c = cmd_component_add (js "rust-src")) then
      inl (new_Error (js "error: component download failed"))
    else ok [];
  clicked_item := fun _ _ _ => Some (js "Yes")
|}.

(** Adding [rls] fails. *)
Definition w_rls_fails : world := {|
  run_command := fun _ c =>
    if bool_decide (c = cmd_component_add (js "rls")) then
      inl (new_Error (js "error: component download failed"))
    else ok [];
  clicked_item := fun _ _ _ => Some (js "Yes")
|}.

(** The command runner rejects the install of the toolchain with an error
    whose message reads like that of a failed component. *)
Definition w_toolchain_fails : world := {|
  run_command := fun _ c =>
    if bool_decide (c = cmd_toolchain_install) then
      inl (install_error (js "rls"))
    else ok [];
  clicked_item := fun _ _ _ => Some (js "Yes")
|}.

(** Whatever the command, rustup prints [out]. *)
Definition w_prints (out : jsstring) : world := {|
  run_command := fun _ _ => ok out;
  clicked_item := fun _ _ _ => None
|}.

(** A listing in which every component is followed at once by its
    annotation. *)
Definition listing_no_space : jsstring :=
  js "rls(installed)" ++ [LF] ++ js "rust-analysis(installed)" ++ [LF]
  ++ js "rust-src(installed)".

Definition env_example : gmap jsstring jsstring :=
  {[ js "RUST_LOG" := js "info"; js "PATH" := js "/usr/bin" ]}.

End Props.

Import Props.

(** ** Vocabulary of whole runs *)

Module Runs.

Definition component_offer : event :=
  ShowInformationMessage (js "RLS not installed. Install?") [js "Yes"].

(** The questions put to the user, in order. *)
Definition prompts (t : list event) : list jsstring :=
  omap (fun e => match e with
                 | ShowInformationMessage m _ => Some m
                 | _ => None
                 end) t.

(** Every command was carried out. *)
Definition all_succeeded (a : list (jsstring * bool)) : bool :=
  forallb snd a.

(** The last command failed, and it is the only one that did. *)
Definition failed_last (a : list (jsstring * bool)) : bool :=
  match reverse a with
  | (_, false) :: pre => forallb snd pre
  | _ => false
  end.

(** The failed commands of a trace, each with the error the command runner
    rejected with. *)
Fixpoint failures (w : world) (h t : list event)
  : list (jsstring * JsError) :=
  match t with
  | [] => []
  | ExecChildProcess c :: t' =>
      match run_command w h c with
      | inl e => [(c, e)]
      | inr _ => []
      end ++ failures w (h ++ [ExecChildProcess c]) t'
  | e :: t' => failures w (h ++ [e]) t'
  end.


(** Starts and stops of the spinner take turns, from [running] on, and the
    spinner is stopped in the end. *)
Fixpoint spinner_alternates (running : bool) (t : list event) : bool :=
  match t with
  | [] => negb running
  | StartSpinner _ :: t' => negb running && spinner_alternates true t'
  | StopSpinner _ :: t' => running && spinner_alternates false t'
  | _ :: t' => spinner_alternates running t'
  end.

(** The commands run while the spinner is shown. *)
Fixpoint commands_under_spinner (running : bool) (t : list event)
  : list jsstring :=
  match t with
  | [] => []
  | StartSpinner _ :: t' => commands_under_spinner true t'
  | StopSpinner _ :: t' => commands_under_spinner false t'
  | ExecChildProcess c :: t' =>
      (if running then [c] else []) ++ commands_under_spinner running t'
  | _ :: t' => commands_under_spinner running t'
  end.

Definition CR : code_unit := 13%N.

(** Lines put together with a separator between them. *)
Fixpoint join_lines (sep : jsstring) (ls : list jsstring) : jsstring :=
  match ls with
  | [] => []
  | [l] => l
  | l :: ls' => l ++ sep ++ join_lines sep ls'
  end.

(** The lines of a listing, and the same lines in another order among
    others. *)
Definition lines_three : list jsstring :=
  [js "rls-x86_64-unknown-linux-gnu (installed)";
   js "rust-analysis-x86_64-unknown-linux-gnu (installed)";
   js "rust-src (installed)"].

Definition lines_shuffled : list jsstring :=
  [js "cargo-x86_64-unknown-linux-gnu (default)";
   js "rust-src (installed)";
   js "rust-docs-x86_64-unknown-linux-gnu (available)";
   js "rust-analysis-x86_64-unknown-linux-gnu (installed)";
   js "rls-x86_64-unknown-linux-gnu (installed)";
   []].

(** The toolchain is listed, the components are not, and the user dismisses
    the offer. *)
Definition w_components_declined : world := {|
  run_command := fun _ c =>
    if bool_decide (c = cmd_toolchain_list) then ok listing_toolchains
    else if bool_decide (c = cmd_component_list) then
      ok (js "rls-x86_64-unknown-linux-gnu (available)" ++ [LF])
    else ok [];
  clicked_item := fun _ _ _ => None
|}.

(** Nothing is installed, the user accepts every offer and every command
    succeeds. *)
Definition w_fresh : world := {|
  run_command := fun _ _ => ok [];
  clicked_item := fun _ _ _ => Some (js "Yes")
|}.

(** The run in [w_fresh]: both offers accepted, every install carried out,
    the server spawned. *)
Definition trace_fresh (env : gmap jsstring jsstring) : list event :=
  [ExecChildProcess cmd_toolchain_list;
   toolchain_offer;
   StartSpinner (js "Installing nightly toolchain...");
   ExecChildProcess cmd_toolchain_install;
   ConsoleLog (LogString []); ConsoleLog (LogString []);
   StopSpinner (js "Nightly toolchain installed successfully");
   ExecChildProcess cmd_component_list;
   component_offer;
   StartSpinner (js "Installing RLS components");
   ExecChildProcess (cmd_component_add (js "rust-analysis"));
   ConsoleLog (LogString []); ConsoleLog (LogString []);
   ExecChildProcess (cmd_component_add (js "rust-src"));
   ConsoleLog (LogString []); ConsoleLog (LogString []);
   ConsoleLog (LogString (js "install rls"));
   ExecChildProcess (cmd_component_add (js "rls"));
   ConsoleLog (LogString []); ConsoleLog (LogString []);
   StopSpinner (js "RLS components installed successfully");
   Spawn (rls_process env)].

(** The run in [w_src_fails]: it ends where adding [rust-src] fails. *)
Definition trace_src_fails : list event :=
  [ExecChildProcess cmd_toolchain_list;
   toolchain_offer;
   StartSpinner (js "Installing nightly toolchain...");
   ExecChildProcess cmd_toolchain_install;
   ConsoleLog (LogString []); ConsoleLog (LogString []);
   StopSpinner (js "Nightly toolchain installed successfully");
   ExecChildProcess cmd_component_list;
   component_offer;
   StartSpinner (js "Installing RLS components");
   ExecChildProcess (cmd_component_add (js "rust-analysis"));
   ConsoleLog (LogString []); ConsoleLog (LogString []);
   ExecChildProcess (cmd_component_add (js "rust-src"));
   ShowErrorMessage (js "Could not install RLS component (rust-src)");
   StopSpinner (js "Could not install RLS")].

End Runs.

Import Runs.


(** ** Strings and patterns: what the functions compute *)

Section StringFacts.

Lemma starts_with_spec (pat s : jsstring) :
  starts_with pat s = true <-> exists post, s = pat ++ post.
Proof.
  revert s. induction pat as [|p pat IH]; intros s; simpl.
  - split; eauto.
  - destruct s as [|c s].
    + split; [discriminate | intros [post H]; discriminate].
    + rewrite andb_true_iff, N.eqb_eq, IH. split.
      * intros [-> [post ->]]. eauto.
      * intros [post H]. injection H as -> ->. eauto.
Qed.

Lemma indexOf_from_range (pat s : jsstring) (i : Z) :
  indexOf_from pat s i = -1 \/ i <= indexOf_from pat s i.
Proof.
  revert i. induction s as [|c s IH]; intros i; simpl.
  - destruct (starts_with pat []); lia.
  - destruct (starts_with pat (c :: s)); [lia|].
    destruct (IH (i + 1)); lia.
Qed.

Lemma indexOf_from_found (pat s : jsstring) (i : Z) :
  0 <= i -> (indexOf_from pat s i > -1 <-> contains s pat).
Proof.
  revert i. induction s as [|c s IH]; intros i Hi; simpl.
  - destruct (starts_with pat []) eqn:E.
    + apply starts_with_spec in E as [post E]. split; [|lia].
      intros _. exists [], post. exact E.
    + split; [lia|]. intros (pre & post & H).
      destruct pre; simpl in H; [|discriminate].
      assert (starts_with pat [] = true) by (apply starts_with_spec; eauto).
      congruence.
  - destruct (starts_with pat (c :: s)) eqn:E.
    + apply starts_with_spec in E as [post E]. split; [|lia].
      intros _. exists [], post. exact E.
    + rewrite IH by lia. split.
      * intros (pre & post & ->). exists (c :: pre), post. reflexivity.
      * intros (pre & post & H). destruct pre as [|c' pre]; simpl in H.
        -- assert (starts_with pat (c :: s) = true)
             by (apply starts_with_spec; eauto).
           congruence.
        -- injection H as -> ->. exists pre, post. reflexivity.
Qed.

Lemma indexOf_found (s pat : jsstring) :
  (indexOf s pat >? -1) = true <-> contains s pat.
Proof.
  unfold indexOf. rewrite Z.gtb_gt, <- (indexOf_from_found pat s 0) by lia. lia.
Qed.

End StringFacts.

Section RegexFacts.

Variable multiline : bool.

Lemma last_unit_app (prev : option code_unit) (w1 w2 : jsstring) :
  last_unit prev (w1 ++ w2) = last_unit (last_unit prev w1) w2.
Proof. unfold last_unit. apply fold_left_app. Qed.

Lemma star_match_spec (a : atom) (s : jsstring) :
  forall (prev : option code_unit) (k : cont),
    star_match a prev s k = true <->
    exists w post, s = w ++ post
      /\ Forall (fun c => atom_accepts a c = true) w
      /\ k (last_unit prev w) post = true.
Proof.
  induction s as [|c s IH]; intros prev k; simpl.
  - split.
    + intros H. exists [], []. auto.
    + intros (w & post & H & _ & Hk).
      symmetry in H. apply app_eq_nil in H as [-> ->]. exact Hk.
  - rewrite orb_true_iff. split.
    + intros [H | H].
      * destruct (atom_accepts a c) eqn:Ha; [|discriminate].
        apply IH in H as (w & post & -> & Hw & Hk).
        exists (c :: w), post. repeat split; auto.
      * exists [], (c :: s). auto.
    + intros (w & post & H & Hw & Hk). destruct w as [|c' w]; simpl in H.
      * right. subst post. exact Hk.
      * left. injection H as -> ->. apply Forall_cons in Hw as [Ha Hw].
        rewrite Ha. apply IH. exists w, post. auto.
Qed.

Lemma rmatch_spec (r : regex) :
  forall (prev : option code_unit) (s : jsstring) (k : cont),
    rmatch multiline r prev s k = true <->
    exists w post, s = w ++ post
      /\ den multiline r prev w post
      /\ k (last_unit prev w) post = true.
Proof.
  induction r as [|a|a|r1 IH1 r2 IH2|r1 IH1 r2 IH2| |]; intros prev s k; simpl.
  - split.
    + intros H. exists [], s. auto.
    + intros (w & post & -> & -> & Hk). exact Hk.
  - destruct s as [|c s].
    + split; [discriminate|].
      intros (w & post & H & (c & -> & _) & _). discriminate.
    + split.
      * destruct (atom_accepts a c) eqn:Ha; [|discriminate].
        intros Hk. exists [c], s. eauto.
      * intros (w & post & H & (c' & -> & Ha) & Hk).
        injection H as -> ->. rewrite Ha. exact Hk.
  - apply star_match_spec.
  - rewrite IH1. split.
    + intros (w1 & post1 & -> & H1 & H2).
      apply IH2 in H2 as (w2 & post & -> & H2 & Hk).
      exists (w1 ++ w2), post. rewrite <- app_assoc, last_unit_app. eauto 8.
    + intros (w & post & -> & (w1 & w2 & -> & H1 & H2) & Hk).
      exists w1, (w2 ++ post). rewrite <- app_assoc. repeat split; auto.
      apply IH2. exists w2, post. rewrite <- last_unit_app. auto.
  - rewrite orb_true_iff, IH1, IH2. split.
    + intros [(w & post & H)|(w & post & H)]; exists w, post; tauto.
    + intros (w & post & H & [Hd|Hd] & Hk); [left|right]; eauto.
  - split.
    + destruct (at_bol multiline prev) eqn:Hb; [|discriminate].
      intros Hk. exists [], s. auto.
    + intros (w & post & -> & (-> & Hb) & Hk). rewrite Hb. exact Hk.
  - split.
    + destruct (at_eol multiline s) eqn:He; [|discriminate].
      intros Hk. exists [], s. auto.
    + intros (w & post & -> & (-> & He) & Hk). simpl. rewrite He. exact Hk.
Qed.

Lemma search_from_range (r : regex) (s : jsstring) :
  forall prev i, search_from multiline r prev s i = -1
                 \/ i <= search_from multiline r prev s i.
Proof.
  induction s as [|c s IH]; intros prev i; simpl.
  - destruct (rmatch _ _ _ _ _); lia.
  - destruct (rmatch _ _ _ _ _); [lia|]. destruct (IH (Some c) (i + 1)); lia.
Qed.

Lemma search_from_spec (r : regex) (s : jsstring) :
  forall prev i, 0 <= i ->
    (search_from multiline r prev s i <> -1 <->
     exists pre w post, s = pre ++ w ++ post
       /\ den multiline r (last_unit prev pre) w post).
Proof.
  induction s as [|c s IH]; intros prev i Hi; simpl.
  - destruct (rmatch multiline r prev [] accept) eqn:E.
    + apply rmatch_spec in E as (w & post & H & Hd & _).
      split; [|lia]. intros _. exists [], w, post. auto.
    + split; [congruence|]. intros (pre & w & post & H & Hd).
      symmetry in H. apply app_eq_nil in H as [-> H]. simpl in Hd.
      assert (rmatch multiline r prev [] accept = true)
        by (apply rmatch_spec; exists w, post; auto).
      congruence.
  - destruct (rmatch multiline r prev (c :: s) accept) eqn:E.
    + apply rmatch_spec in E as (w & post & H & Hd & _).
      split; [|lia]. intros _. exists [], w, post. auto.
    + rewrite IH by lia. split.
      * intros (pre & w & post & -> & Hd). exists (c :: pre), w, post. auto.
      * intros (pre & w & post & H & Hd). destruct pre as [|c' pre].
        -- simpl in H, Hd.
           assert (rmatch multiline r prev (c :: s) accept = true)
             by (apply rmatch_spec; exists w, post; auto).
           congruence.
        -- injection H as -> ->. exists pre, w, post. auto.
Qed.

Lemma search_spec (s : jsstring) (r : regex) :
  search multiline s r <> -1 <->
  exists pre w post, s = pre ++ w ++ post
    /\ den multiline r (last_unit None pre) w post.
Proof. unfold search. apply search_from_spec. lia. Qed.

Lemma lit_den (x : jsstring) :
  forall prev w post, den multiline (lit x) prev w post <-> w = x.
Proof.
  induction x as [|c x IH]; intros prev w post; simpl; [tauto|].
  split.
  - intros (w1 & w2 & -> & (c' & -> & Hc) & H2).
    apply N.eqb_eq in Hc as ->. apply IH in H2 as ->. reflexivity.
  - intros ->. exists [c], x. repeat split.
    + exists c. split; [reflexivity | apply N.eqb_refl].
    + apply IH. reflexivity.
Qed.

End RegexFacts.

Section LineFacts.

Abbreviation plain := (Forall (fun c => is_line_terminator c = false)).

Lemma at_bol_last_unit (pre : jsstring) :
  at_bol true (last_unit None pre) = true <->
  pre = [] \/ exists pre' c, pre = pre' ++ [c] /\ is_line_terminator c = true.
Proof.
  destruct pre as [|c pre] using rev_ind.
  - simpl. split; auto.
  - rewrite last_unit_app. simpl. split.
    + intros H. right. eauto.
    + intros [H | (pre' & c' & H & Hc)].
      * destruct pre; discriminate.
      * apply app_inj_tail in H as [_ ->]. exact Hc.
Qed.

Lemma plain_not_eol (c : code_unit) (l post : jsstring) :
  plain (c :: l) -> at_eol true (c :: l ++ post) = true -> False.
Proof.
  intros Hp He. apply Forall_cons in Hp as [Hc _].
  simpl in He. congruence.
Qed.

(** Two stretches without terminator that start at the same place and both
    end at an end of line are the same stretch. *)
Lemma segment_unique (l : jsstring) :
  forall l' post post',
    l ++ post = l' ++ post' -> plain l -> plain l' ->
    at_eol true post = true -> at_eol true post' = true -> l = l'.
Proof.
  induction l as [|c l IH]; intros l' post post' H Hl Hl' He He'.
  - destruct l' as [|c' l']; [reflexivity|].
    simpl in H. subst post. exfalso. eapply plain_not_eol; eauto.
  - destruct l' as [|c' l'].
    + simpl in H. subst post'. exfalso. eapply plain_not_eol; eauto.
    + injection H as -> H. f_equal.
      apply Forall_cons in Hl as [_ Hl]. apply Forall_cons in Hl' as [_ Hl'].
      eapply IH; eauto.
Qed.

Lemma js_lines_shape (s : jsstring) :
  exists l0 ls, js_lines s = l0 :: ls
    /\ (exists post0, s = l0 ++ post0 /\ plain l0 /\ at_eol true post0 = true)
    /\ (forall l, l ∈ ls <->
          exists pre c post, s = pre ++ c :: l ++ post
            /\ is_line_terminator c = true /\ plain l
            /\ at_eol true post = true).
Proof.
  induction s as [|c s (l0 & ls & E & (post0 & Hs & Hp0 & He0) & Htl)].
  - exists [], []. simpl. repeat split.
    + exists []. auto.
    + intros H. inversion H.
    + intros (pre & c & post & H & _). destruct pre; discriminate.
  - simpl. rewrite E. destruct (is_line_terminator c) eqn:Hc.
    + exists [], (l0 :: ls). repeat split.
      * exists (c :: s). simpl. rewrite Hc. auto.
      * intros H. apply elem_of_cons in H as [-> | H].
        -- exists [], c, post0. simpl. rewrite <- Hs. auto.
        -- apply Htl in H as (pre & c' & post & -> & H).
           exists (c :: pre), c', post. auto.
      * intros (pre & c' & post & H & Hc' & Hl & He).
        apply elem_of_cons. destruct pre as [|c1 pre]; simpl in H.
        -- left. injection H as -> H.
           rewrite Hs in H. symmetry in H.
           eapply segment_unique; eauto.
        -- right. injection H as -> ->. apply Htl. eauto 8.
    + exists (c :: l0), ls. repeat split.
      * exists post0. simpl. rewrite <- Hs. auto.
      * intros H. apply Htl in H as (pre & c' & post & -> & H).
        exists (c :: pre), c', post. auto.
      * intros (pre & c' & post & H & Hc' & Hl & He).
        destruct pre as [|c1 pre]; simpl in H; injection H as -> H.
        -- congruence.
        -- apply Htl. eauto 8.
Qed.

Lemma js_lines_spec (s l : jsstring) : l ∈ js_lines s <-> line_of s l.
Proof.
  destruct (js_lines_shape s)
    as (l0 & ls & -> & (post0 & Hs & Hp0 & He0) & Htl).
  unfold line_of. split.
  - intros H. apply elem_of_cons in H as [-> | H].
    + exists [], post0. auto.
    + apply Htl in H as (pre & c & post & -> & Hc & Hl & He).
      exists (pre ++ [c]), post. rewrite <- app_assoc. repeat split; auto.
      apply at_bol_last_unit. eauto.
  - intros (pre & post & H & Hl & Hb & He). apply elem_of_cons.
    apply at_bol_last_unit in Hb as [-> | (pre' & c & -> & Hc)].
    + left. simpl in H. rewrite Hs in H. symmetry in H.
      eapply segment_unique; eauto.
    + right. apply Htl. exists pre', c, post.
      rewrite <- app_assoc in H. auto.
Qed.

Lemma plain_dot (w : jsstring) :
  Forall (fun c => atom_accepts ADot c = true) w <-> plain w.
Proof.
  apply Forall_iff. intros c. simpl. apply negb_true_iff.
Qed.

Lemma component_pattern_den (m : bool) (name w post : jsstring)
      (prev : option code_unit) :
  den m (component_pattern name) prev w post <->
  at_bol m prev = true /\ at_eol m post = true
  /\ exists mid, plain mid
       /\ (w = name ++ mid ++ js " (default)"
           \/ w = name ++ mid ++ js " (installed)").
Proof.
  unfold component_pattern. cbn [den]. split.
  - intros (w1 & w2 & -> & (-> & Hb) & w3 & w4 & -> & H3 & w5 & w6 & -> & H5
            & w7 & w8 & -> & H7 & w9 & w10 & -> & H9 & w11 & w12 & -> & H11
            & -> & He).
    apply lit_den in H3, H7, H11. subst. apply plain_dot in H5.
    repeat split; auto. exists w5. split; [assumption|].
    destruct H9 as [H9|H9]; apply lit_den in H9; subst; [left|right];
      reflexivity.
  - intros (Hb & He & mid & Hm & Hw).
    assert (exists state, (state = js "default" \/ state = js "installed")
              /\ w = name ++ mid ++ js " (" ++ state ++ js ")") as
      (state & Hstate & ->).
    { destruct Hw as [-> | ->];
        [exists (js "default") | exists (js "installed")];
        (split; [auto | reflexivity]). }
    exists [], (name ++ mid ++ js " (" ++ state ++ js ")").
    repeat split; auto.
    exists name, (mid ++ js " (" ++ state ++ js ")"). split; [reflexivity|].
    split; [apply lit_den; reflexivity|].
    exists mid, (js " (" ++ state ++ js ")"). split; [reflexivity|].
    split; [apply plain_dot; assumption|].
    exists (js " ("), (state ++ js ")"). split; [reflexivity|].
    split; [apply lit_den; reflexivity|].
    exists state, (js ")"). split; [reflexivity|].
    split; [destruct Hstate as [-> | ->]; [left|right]; apply lit_den;
            reflexivity|].
    exists (js ")"), []. split; [reflexivity|].
    split; [apply lit_den; reflexivity|]. auto.
Qed.

Lemma plain_annotation :
  plain (js " (default)") /\ plain (js " (installed)").
Proof. split; vm_compute; repeat constructor. Qed.

Lemma search_component_pattern (name out : jsstring) :
  plain name ->
  (search true out (component_pattern name) <> -1 <->
   exists line, line ∈ js_lines out /\ line_shows_installed name line).
Proof.
  intros Hname. destruct plain_annotation as [Hd Hi].
  rewrite search_spec. split.
  - intros (pre & w & post & -> & H).
    apply component_pattern_den in H as (Hb & He & mid & Hm & Hw).
    exists w. split.
    + apply js_lines_spec. exists pre, post. repeat split; auto.
      destruct Hw as [-> | ->]; repeat (apply Forall_app; split); auto.
    + exists mid. exact Hw.
  - intros (line & Hin & mid & Hw).
    apply js_lines_spec in Hin as (pre & post & -> & Hl & Hb & He).
    exists pre, line, post. split; [reflexivity|].
    apply component_pattern_den. repeat split; auto.
    exists mid. split; [|exact Hw].
    destruct Hw as [-> | ->];
      apply Forall_app in Hl as [_ Hl]; apply Forall_app in Hl as [Hl _];
      exact Hl.
Qed.

(** On one line, the pattern without the [m] flag says the same. *)
Lemma matches_component_pattern (name line : jsstring) :
  plain line ->
  (matches_pattern line (component_pattern name) = true <->
   line_shows_installed name line).
Proof.
  intros Hline. unfold matches_pattern.
  rewrite negb_true_iff, Z.eqb_neq, search_spec. split.
  - intros (pre & w & post & -> & H).
    apply component_pattern_den in H as (Hb & He & mid & Hm & Hw).
    destruct post as [|c post]; [|discriminate].
    destruct pre as [|c pre _] using rev_ind.
    + rewrite app_nil_r. exists mid. exact Hw.
    + rewrite last_unit_app in Hb. discriminate.
  - intros (mid & Hw). exists [], line, []. rewrite app_nil_r.
    split; [reflexivity|].
    apply component_pattern_den. repeat split.
    exists mid. split; [|exact Hw].
    destruct Hw as [-> | ->];
      apply Forall_app in Hline as [_ Hl]; apply Forall_app in Hl as [Hl _];
      exact Hl.
Qed.

Lemma js_lines_plain (s l : jsstring) : l ∈ js_lines s -> plain l.
Proof. intros H. apply js_lines_spec in H as (_ & _ & _ & H & _). exact H. Qed.

End LineFacts.


(** ** Running the embedding *)

(** Unfold a program of the monad down to the answers of the world. *)
Ltac unfold_program :=
  cbv [rustupUpdate hasNightlyToolchain tryToInstallNightlyToolchain
       checkForNightly hasRlsComponents tryFn install_step installRls
       checkForRls runRlsViaRustup
       mbind mret M_bind M_ret bind ret throw try_catch emit
       startSpinner stopSpinner console_log showErrorMessage
       execChildProcess showInformationMessage spawn].

(** Ask the world for its next answer. *)
Ltac next_answer :=
  match goal with
  | |- context [run_command ?w ?h ?c] =>
      let E := fresh "Hrun" in destruct (run_command w h c) eqn:E
  | |- context [clicked_item ?w ?h ?m ?i] =>
      let E := fresh "Hclick" in
      destruct (bool_decide (clicked_item w h m i = Some (js "Yes"))) eqn:E
  end; cbn [app].

(** C3. The toolchain probe answers "present" exactly when the listing
    contains the substring "nightly", and "absent" when it does not. *)
Theorem hasNightlyToolchain_present_iff_nightly (w : world)
        (h : list event) (r : ExecResult) :
  run_command w h cmd_toolchain_list = inr r ->
  exists present,
    hasNightlyToolchain w h
      = ([ExecChildProcess cmd_toolchain_list], Returned present)
    /\ (present = true <-> contains (stdout r) (js "nightly"))
    /\ (present = false <-> ~ contains (stdout r) (js "nightly")).
Proof.
  intros Hrun. unfold_program. fold cmd_toolchain_list. rewrite Hrun.
  cbn [app]. eexists. split; [reflexivity|].
  rewrite <- indexOf_found. split; [tauto|].
  destruct (indexOf (stdout r) (js "nightly") >? -1); split; congruence.
Qed.

Lemma hasNightlyToolchain_present_iff_nightly_witness :
  exists present,
    hasNightlyToolchain w_ready []
      = ([ExecChildProcess cmd_toolchain_list], Returned present)
    /\ (present = true <-> contains listing_toolchains (js "nightly"))
    /\ (present = false <-> ~ contains listing_toolchains (js "nightly")).
Proof.
  apply (hasNightlyToolchain_present_iff_nightly w_ready []
           {| stdout := listing_toolchains; stderr := [] |}).
  reflexivity.
Defined.

(** Scenario A of the specification. *)
Example hasNightlyToolchain_scenario_A :
  hasNightlyToolchain w_ready []
  = ([ExecChildProcess cmd_toolchain_list], Returned true).
Proof. reflexivity. Qed.

(** Scenario B: only the stable toolchain is listed. *)
Example hasNightlyToolchain_scenario_B :
  hasNightlyToolchain w_declined []
  = ([ExecChildProcess cmd_toolchain_list], Returned false).
Proof. reflexivity. Qed.

Lemma plain_required (name : jsstring) :
  name ∈ required_components ->
  Forall (fun c => is_line_terminator c = false) name.
Proof.
  intros H. unfold required_components in H.
  repeat (apply elem_of_cons in H as [-> | H];
          [vm_compute; repeat constructor|]).
  inversion H.
Qed.

Lemma components_listed_spec (out : jsstring) :
  components_listed out = true <-> components_present out.
Proof.
  assert (Hs : forall name, name ∈ required_components ->
            ((search true out (component_pattern name) =? -1) = false <->
             exists line, line ∈ js_lines out
                          /\ line_shows_installed name line)).
  { intros name Hin.
    rewrite <- (search_component_pattern name out (plain_required name Hin)).
    apply Z.eqb_neq. }
  unfold components_listed, components_present. split.
  - intros H name Hin. apply Hs; [assumption|].
    destruct (_ || _) eqn:E in H; [discriminate|].
    apply orb_false_iff in E as [E E3]. apply orb_false_iff in E as [E1 E2].
    unfold required_components in Hin.
    repeat (apply elem_of_cons in Hin as [-> | Hin]; [assumption|]).
    inversion Hin.
  - intros H.
    assert (Hall : forall name, name ∈ required_components ->
              (search true out (component_pattern name) =? -1) = false).
    { intros name Hin. apply Hs; auto. }
    rewrite !Hall; [reflexivity| | |]; unfold required_components;
      repeat constructor.
Qed.

Lemma components_match_present (out : jsstring) :
  components_match component_pattern out <-> components_present out.
Proof.
  unfold components_match, components_present.
  split; intros H name Hin; destruct (H name Hin) as (line & Hl & Hm);
    exists line; (split; [assumption|]);
    apply (matches_component_pattern name line (js_lines_plain _ _ Hl));
    assumption.
Qed.

(** C2, as the code has it.  The component probe answers "present" exactly
    when, for each of [rls], [rust-analysis] and [rust-src], some line of the
    listing matches [^<name>.* \((default|installed)\)$], that is, starts
    with the name and ends with a space followed by [(default)] or
    [(installed)]; otherwise it answers "absent". *)
Theorem hasRlsComponents_present_iff_listed (w : world) (h : list event)
        (r : ExecResult) :
  run_command w h cmd_component_list = inr r ->
  exists present,
    hasRlsComponents w h
      = ([ExecChildProcess cmd_component_list], Returned present)
    /\ (present = true <-> components_match component_pattern (stdout r))
    /\ (present = true <-> components_present (stdout r))
    /\ (present = false <-> ~ components_present (stdout r)).
Proof.
  intros Hrun. unfold_program. fold cmd_component_list. rewrite Hrun.
  cbn [app]. eexists. split; [reflexivity|].
  rewrite components_match_present, <- components_listed_spec.
  split; [tauto|]. split; [tauto|].
  destruct (components_listed (stdout r)); split; congruence.
Qed.

Lemma hasRlsComponents_present_iff_listed_witness :
  exists present,
    hasRlsComponents w_ready []
      = ([ExecChildProcess cmd_component_list], Returned present)
    /\ (present = true <-> components_match component_pattern
                              listing_components)
    /\ (present = true <-> components_present listing_components)
    /\ (present = false <-> ~ components_present listing_components).
Proof.
  apply (hasRlsComponents_present_iff_listed w_ready []
           {| stdout := listing_components; stderr := [] |}).
  reflexivity.
Defined.

(** Scenario C of the specification: without a line for [rust-src] the
    components are absent, whatever the other two lines say. *)
Example hasRlsComponents_scenario_C :
  hasRlsComponents
    (w_prints (js "rls-x86_64 (installed)" ++ [LF]
               ++ js "rust-analysis-x86_64 (installed)" ++ [LF])) []
  = ([ExecChildProcess cmd_component_list], Returned false).
Proof. reflexivity. Qed.

Example hasRlsComponents_available_is_absent :
  hasRlsComponents
    (w_prints (js "rls-x86_64 (installed)" ++ [LF]
               ++ js "rust-analysis-x86_64 (installed)" ++ [LF]
               ++ js "rust-src (available)" ++ [LF])) []
  = ([ExecChildProcess cmd_component_list], Returned false).
Proof. reflexivity. Qed.

(** C2, as the specification words it, fails.  Each of the three names has a
    line matching [^<name>.*\((default|installed)\)$], yet the probe answers
    "absent": the pattern of the code wants a space before the
    parenthesis. *)
Lemma hasRlsComponents_spec_pattern_counterexample :
  spec_components_present listing_no_space
  /\ hasRlsComponents (w_prints listing_no_space) []
     = ([ExecChildProcess cmd_component_list], Returned false).
Proof.
  split; [|reflexivity].
  intros name Hin. unfold required_components in Hin.
  apply elem_of_cons in Hin as [-> | Hin];
    [exists (js "rls(installed)"); split;
       [vm_compute; repeat constructor | reflexivity]|].
  apply elem_of_cons in Hin as [-> | Hin];
    [exists (js "rust-analysis(installed)"); split;
       [vm_compute; repeat constructor | reflexivity]|].
  apply elem_of_cons in Hin as [-> | Hin];
    [exists (js "rust-src(installed)"); split;
       [vm_compute; repeat constructor | reflexivity]|].
  inversion Hin.
Qed.

(** C6. When the command runner fails under a probe, the probe throws the
    runner's error, it does not answer "absent", and it has shown a
    diagnostic before. *)
Theorem probe_failure_is_thrown (w : world) (h : list event) (e : JsError) :
  (run_command w h cmd_toolchain_list = inl e ->
   hasNightlyToolchain w h
   = ([ExecChildProcess cmd_toolchain_list;
       ConsoleLog (LogError e);
       ShowErrorMessage
         (js "Rustup not available. Install from https://www.rustup.rs/")],
      Threw e))
  /\ (run_command w h cmd_component_list = inl e ->
      hasRlsComponents w h
      = ([ExecChildProcess cmd_component_list;
          ConsoleLog (LogError e);
          ShowErrorMessage
            (js "Unexpected error initialising RLS - error running rustup")],
         Threw e)).
Proof.
  split; intros Hrun; unfold_program;
    fold cmd_toolchain_list; fold cmd_component_list;
    rewrite Hrun; reflexivity.
Qed.

Lemma probe_failure_is_thrown_witness :
  hasNightlyToolchain w_no_rustup []
  = ([ExecChildProcess cmd_toolchain_list;
      ConsoleLog (LogError e_not_found);
      ShowErrorMessage
        (js "Rustup not available. Install from https://www.rustup.rs/")],
     Threw e_not_found)
  /\ hasRlsComponents w_no_rustup []
     = ([ExecChildProcess cmd_component_list;
         ConsoleLog (LogError e_not_found);
         ShowErrorMessage
           (js "Unexpected error initialising RLS - error running rustup")],
        Threw e_not_found).
Proof.
  split.
  - apply (proj1 (probe_failure_is_thrown w_no_rustup [] e_not_found)).
    reflexivity.
  - apply (proj2 (probe_failure_is_thrown w_no_rustup [] e_not_found)).
    reflexivity.
Defined.

(** Bring the histories of the answers to the form [h ++ [e1; ...; en]]. *)
Ltac flatten_history :=
  repeat rewrite <- app_assoc in *; cbn [app] in *.

Ltac fold_commands :=
  fold cmd_update; fold cmd_toolchain_list; fold cmd_toolchain_install;
  fold cmd_component_list;
  fold (cmd_component_add (js "rust-analysis"));
  fold (cmd_component_add (js "rust-src"));
  fold (cmd_component_add (js "rls")).

Ltac run_program := unfold_program; fold_commands; cbn [app].

(** ** The installers *)

(** C4. [installRls] hands the commands to the runner in the order
    [rust-analysis], [rust-src], [rls]; the first command that fails is the
    last one attempted, and the run throws. *)
Theorem installRls_in_order_until_first_failure (w : world) (h : list event) :
  exists t r,
    installRls w h = (t, r)
    /\ ((attempts w h t
         = map (fun c => (cmd_component_add c, true)) install_order
         /\ r = Returned tt)
        \/ (exists (n : nat) c,
               install_order !! n = Some c
               /\ attempts w h t
                  = map (fun c => (cmd_component_add c, true))
                        (take n install_order)
                    ++ [(cmd_component_add c, false)]
               /\ r = Threw (install_error c))).
Proof.
  run_program.
  next_answer; [|next_answer; [|next_answer]];
    do 2 eexists; (split; [reflexivity|]);
    cbn [attempts app]; flatten_history; rewrite ?Hrun, ?Hrun0, ?Hrun1;
    cbn [succeeded].
  - right. exists 0%nat, (js "rust-analysis"). repeat split; reflexivity.
  - right. exists 1%nat, (js "rust-src"). repeat split; reflexivity.
  - right. exists 2%nat, (js "rls"). repeat split; reflexivity.
  - left. split; reflexivity.
Qed.

(** When adding [rust-src] fails, [rls] is not attempted. *)
Example installRls_stops_at_rust_src :
  (attempts w_src_fails [] (installRls w_src_fails []).1
   = [(cmd_component_add (js "rust-analysis"), true);
      (cmd_component_add (js "rust-src"), false)])
  /\ (installRls w_src_fails []).2 = Threw (install_error (js "rust-src")).
Proof. split; reflexivity. Qed.

(** C7, as the code has it.  A failed component install throws a new error
    whose message names the component whose command failed.  A failed
    toolchain install throws the error of the command runner as it is: the
    toolchain is named by the diagnostic and by the message of the spinner,
    and the installer adds nothing to the error. *)
Theorem install_failure_errors (w : world) (h : list event) :
  (forall t e,
      installRls w h = (t, Threw e) ->
      exists c, c ∈ install_order
        /\ e = install_error c
        /\ last (commands t) = Some (cmd_component_add c)
        /\ diagnostics t
           = [js "Could not install RLS component (" ++ c ++ js ")"])
  /\ (forall t e,
      tryToInstallNightlyToolchain w h = (t, Threw e) ->
      run_command w (h ++ [StartSpinner (js "Installing nightly toolchain...")])
                  cmd_toolchain_install = inl e
      /\ t = [StartSpinner (js "Installing nightly toolchain...");
              ExecChildProcess cmd_toolchain_install;
              ConsoleLog (LogError e);
              ShowErrorMessage (js "Could not install nightly toolchain");
              StopSpinner (js "Could not install nightly toolchain")])
  /\ (forall e,
      run_command w (h ++ [StartSpinner (js "Installing nightly toolchain...")])
                  cmd_toolchain_install = inl e ->
      (tryToInstallNightlyToolchain w h).2 = Threw e).
Proof.
  split; [|split].
  - intros t e. run_program.
    next_answer; [|next_answer; [|next_answer]]; intros H; simplify_eq.
    + exists (js "rust-analysis"). repeat split; try reflexivity.
      unfold install_order. repeat constructor.
    + exists (js "rust-src"). repeat split; try reflexivity.
      unfold install_order. repeat constructor.
    + exists (js "rls"). repeat split; try reflexivity.
      unfold install_order. repeat constructor.
  - intros t e. run_program. next_answer; intros H; simplify_eq.
    split; reflexivity.
  - intros e He. run_program. rewrite He. reflexivity.
Qed.

Lemma install_failure_errors_witness :
  (exists c, c ∈ install_order
     /\ install_error (js "rust-src") = install_error c
     /\ last (commands (installRls w_src_fails []).1)
        = Some (cmd_component_add c)
     /\ diagnostics (installRls w_src_fails []).1
        = [js "Could not install RLS component (" ++ c ++ js ")"])
  /\ (tryToInstallNightlyToolchain w_no_rustup []).2 = Threw e_not_found.
Proof.
  split.
  - apply (proj1 (install_failure_errors w_src_fails [])
             (installRls w_src_fails []).1 (install_error (js "rust-src"))).
    reflexivity.
  - apply (proj2 (proj2 (install_failure_errors w_no_rustup []))
             e_not_found).
    reflexivity.
Defined.

(** The same error comes out of a failed toolchain install in one world and
    out of a failed install of [rls] in another. *)
Lemma same_error_two_subjects :
  tryToInstallNightlyToolchain w_toolchain_fails []
  = ([StartSpinner (js "Installing nightly toolchain...");
      ExecChildProcess cmd_toolchain_install;
      ConsoleLog (LogError (install_error (js "rls")));
      ShowErrorMessage (js "Could not install nightly toolchain");
      StopSpinner (js "Could not install nightly toolchain")],
     Threw (install_error (js "rls")))
  /\ (installRls w_rls_fails []).2 = Threw (install_error (js "rls"))
  /\ last (commands (installRls w_rls_fails []).1)
     = Some (cmd_component_add (js "rls")).
Proof. repeat split; reflexivity. Qed.

(** C7, as the specification words it, fails: no reading of the errors tells
    the subject of every failed install, because the error of a failed
    toolchain install is whatever the command runner rejected with. *)
Lemma install_errors_identify_subject_counterexample :
  ~ install_errors_identify_subject.
Proof.
  intros (subject_of & Htoolchain & Hcomponent).
  destruct same_error_two_subjects as (Ht & Hc & Hlast).
  specialize (Htoolchain w_toolchain_fails [] _ _ Ht).
  destruct (installRls w_rls_fails []) as [t r] eqn:Hrun.
  simpl in Hc. subst r.
  destruct (Hcomponent w_rls_fails [] _ _ Hrun) as (c & _ & Hsub).
  congruence.
Qed.

(** ** The spinner *)

Lemma started_then_stopped (m1 m2 : jsstring) (mid : list event) :
  spinner_starts mid = [] -> spinner_stops mid = [] ->
  spinner_started_then_stopped (StartSpinner m1 :: mid ++ [StopSpinner m2]).
Proof. intros H1 H2. exists m1, mid, m2. auto. Qed.

(** C10. [rustupUpdate], [tryToInstallNightlyToolchain] and [installRls]
    start the spinner first and stop it last, exactly once, whether they
    return or throw. *)
Theorem spinner_stopped_exactly_once (w : world) (h : list event) :
  spinner_started_then_stopped (rustupUpdate w h).1
  /\ spinner_started_then_stopped (tryToInstallNightlyToolchain w h).1
  /\ spinner_started_then_stopped (installRls w h).1.
Proof.
  split; [|split].
  - run_program. next_answer.
    + apply (started_then_stopped _ _ [_; _]); reflexivity.
    + destruct (indexOf (stdout e) (js "unchanged") >? -1);
        apply (started_then_stopped _ _ [_]); reflexivity.
  - run_program. next_answer.
    + apply (started_then_stopped _ _ [_; _; _]); reflexivity.
    + apply (started_then_stopped _ _ [_; _; _]); reflexivity.
  - run_program. next_answer; [|next_answer; [|next_answer]].
    + apply (started_then_stopped _ _ [_; _]); reflexivity.
    + apply (started_then_stopped _ _ [_; _; _; _; _]); reflexivity.
    + apply (started_then_stopped _ _ [_; _; _; _; _; _; _; _; _]);
        reflexivity.
    + apply (started_then_stopped _ _ [_; _; _; _; _; _; _; _; _; _]);
        reflexivity.
Qed.

Lemma spinner_counts (t : list event) :
  spinner_started_then_stopped t ->
  length (spinner_starts t) = 1%nat /\ length (spinner_stops t) = 1%nat.
Proof.
  intros (m1 & mid & m2 & -> & Hs & Hp).
  unfold spinner_starts, spinner_stops in *.
  change (StartSpinner m1 :: mid ++ [StopSpinner m2])
    with ([StartSpinner m1] ++ mid ++ [StopSpinner m2]).
  rewrite !omap_app, Hs, Hp. split; reflexivity.
Qed.

(** ** The maintenance action *)

(** C8. [rustupUpdate] always returns: on an output containing "unchanged" it
    reports "Up to date.", and when the command fails the error is logged
    and turned into a message of the spinner. *)
Theorem rustupUpdate_never_throws (w : world) (h : list event) :
  (exists t, rustupUpdate w h = (t, Returned tt))
  /\ (forall r,
        run_command w (h ++ [StartSpinner (js "Updating RLS...")]) cmd_update
        = inr r ->
        contains (stdout r) (js "unchanged") ->
        rustupUpdate w h
        = ([StartSpinner (js "Updating RLS...");
            ExecChildProcess cmd_update;
            StopSpinner (js "Up to date.")],
           Returned tt))
  /\ (forall e,
        run_command w (h ++ [StartSpinner (js "Updating RLS...")]) cmd_update
        = inl e ->
        rustupUpdate w h
        = ([StartSpinner (js "Updating RLS...");
            ExecChildProcess cmd_update;
            ConsoleLog (LogError e);
            StopSpinner (js "An error occurred whilst trying to update.")],
           Returned tt)).
Proof.
  split; [|split].
  - run_program. next_answer.
    + eexists. reflexivity.
    + destruct (indexOf (stdout e) (js "unchanged") >? -1);
        eexists; reflexivity.
  - intros r Hrun Hin. apply indexOf_found in Hin.
    run_program. rewrite Hrun, Hin. reflexivity.
  - intros e Hrun. run_program. rewrite Hrun. reflexivity.
Qed.

Lemma rustupUpdate_never_throws_witness :
  rustupUpdate w_ready []
  = ([StartSpinner (js "Updating RLS...");
      ExecChildProcess cmd_update;
      StopSpinner (js "Up to date.")],
     Returned tt)
  /\ rustupUpdate w_no_rustup []
     = ([StartSpinner (js "Updating RLS...");
         ExecChildProcess cmd_update;
         ConsoleLog (LogError e_not_found);
         StopSpinner (js "An error occurred whilst trying to update.")],
        Returned tt).
Proof.
  split.
  - apply (proj1 (proj2 (rustupUpdate_never_throws w_ready []))
             {| stdout := js "info: checking for self-updates" ++ [LF]
                  ++ js "info: toolchain 'nightly-x86_64' unchanged" ++ [LF];
                stderr := [] |}).
    + reflexivity.
    + exists (js "info: checking for self-updates" ++ [LF]
              ++ js "info: toolchain 'nightly-x86_64' "), [LF].
      reflexivity.
  - apply (proj2 (proj2 (rustupUpdate_never_throws w_no_rustup []))
             e_not_found).
    reflexivity.
Defined.

(** ** The bootstrap *)

(** [runRlsViaRustup] is the two checks in sequence, then the spawn. *)
Lemma runRlsViaRustup_run (w : world) (env : gmap jsstring jsstring)
      (h : list event) :
  runRlsViaRustup w env h
  = match checkForNightly w h with
    | (t1, Threw e) => (t1, Threw e)
    | (t1, Returned _) =>
        match checkForRls w (h ++ t1) with
        | (t2, Threw e) => (t1 ++ t2, Threw e)
        | (t2, Returned _) =>
            (t1 ++ t2 ++ [Spawn (rls_process env)],
             Returned (rls_process env))
        end
    end.
Proof.
  cbv [runRlsViaRustup mbind M_bind bind spawn].
  destruct (checkForNightly w h) as [t1 [[]|e]]; [|reflexivity].
  destruct (checkForRls w (h ++ t1)) as [t2 [[]|e]]; reflexivity.
Qed.

(** The toolchain step runs nothing that belongs to a later step. *)
Lemma checkForNightly_events (w : world) (h : list event) :
  forallb (fun e => negb (after_toolchain_step e)) (checkForNightly w h).1
  = true.
Proof.
  run_program. next_answer; [reflexivity|].
  destruct (indexOf (stdout e) (js "nightly") >? -1); [reflexivity|].
  cbn [app]. next_answer; [|reflexivity].
  next_answer; reflexivity.
Qed.

(** The component step does not spawn. *)
Lemma checkForRls_events (w : world) (h : list event) :
  forallb (fun e => negb (is_spawn e)) (checkForRls w h).1 = true.
Proof.
  run_program. next_answer; [reflexivity|].
  destruct (components_listed (stdout e)); [reflexivity|].
  cbn [app]. next_answer; [|reflexivity].
  next_answer; [|next_answer; [|next_answer]]; reflexivity.
Qed.

Lemma forallb_not_elem (P : event -> bool) (pre post : list event)
      (e : event) :
  forallb (fun e => negb (P e)) (pre ++ e :: post) = true -> P e = false.
Proof.
  rewrite forallb_app. simpl. rewrite !andb_true_iff, negb_true_iff. tauto.
Qed.

Lemma prefix_before (P : event -> bool) (t1 : list event) :
  forall rest pre e post,
    t1 ++ rest = pre ++ e :: post ->
    forallb (fun e => negb (P e)) t1 = true ->
    P e = true ->
    t1 `prefix_of` pre.
Proof.
  induction t1 as [|x t1 IH]; intros rest pre e post H Hall He.
  - apply prefix_nil.
  - simpl in Hall. apply andb_true_iff in Hall as [Hx Hall].
    destruct pre as [|y pre]; simpl in H; injection H as -> H.
    + rewrite He in Hx. discriminate.
    + apply prefix_cons. eapply IH; eauto.
Qed.

Lemma spawned_none (t : list event) :
  forallb (fun e => negb (is_spawn e)) t = true -> spawned t = [].
Proof.
  induction t as [|e t IH]; [reflexivity|]. simpl.
  rewrite andb_true_iff. intros [He Ht]. unfold spawned in *.
  destruct e; simpl in *; try discriminate; auto.
Qed.

Lemma toolchain_step_no_spawn (t : list event) :
  forallb (fun e => negb (after_toolchain_step e)) t = true ->
  forallb (fun e => negb (is_spawn e)) t = true.
Proof.
  induction t as [|e t IH]; [reflexivity|]. simpl.
  rewrite !andb_true_iff. intros [He Ht]. split; [|auto].
  destruct e; simpl in *; auto.
Qed.

Lemma no_spawn_in (t : list event) (p : ChildProcess) :
  forallb (fun e => negb (is_spawn e)) t = true -> Spawn p ∈ t -> False.
Proof.
  intros Hall Hp. apply list_elem_of_split in Hp as (pre & post & ->).
  apply forallb_not_elem in Hall. discriminate.
Qed.

(** C1. In a run of [runRlsViaRustup] the server is spawned only when the
    toolchain check and then the component check have both succeeded, and
    nothing of the component step (its probe, its installs) happens before
    the toolchain check has succeeded: when that check throws, the run ends
    there with its error. *)
Theorem spawn_only_after_both_checks (w : world)
        (env : gmap jsstring jsstring) (h t : list event)
        (r : outcome ChildProcess) :
  runRlsViaRustup w env h = (t, r) ->
  (forall p, Spawn p ∈ t ->
     exists t1 t2,
       checkForNightly w h = (t1, Returned tt)
       /\ checkForRls w (h ++ t1) = (t2, Returned tt)
       /\ t = t1 ++ t2 ++ [Spawn p] /\ r = Returned p)
  /\ (forall pre e post,
        t = pre ++ e :: post -> after_toolchain_step e = true ->
        exists t1, checkForNightly w h = (t1, Returned tt)
                   /\ t1 `prefix_of` pre)
  /\ (forall t1 e, checkForNightly w h = (t1, Threw e) ->
        t = t1 /\ r = Threw e).
Proof.
  rewrite runRlsViaRustup_run.
  pose proof (checkForNightly_events w h) as Hn.
  destruct (checkForNightly w h) as [t1 [[]|e1]] eqn:En; simpl in Hn.
  - pose proof (toolchain_step_no_spawn _ Hn) as Hn'.
    pose proof (checkForRls_events w (h ++ t1)) as Hr.
    destruct (checkForRls w (h ++ t1)) as [t2 [[]|e2]] eqn:Er; simpl in Hr;
      intros H; simplify_eq; (split; [|split]).
    + intros p Hp. exists t1, t2.
      apply elem_of_app in Hp as [Hp|Hp];
        [destruct (no_spawn_in _ _ Hn' Hp)|].
      apply elem_of_app in Hp as [Hp|Hp];
        [destruct (no_spawn_in _ _ Hr Hp)|].
      apply list_elem_of_singleton in Hp. simplify_eq. auto.
    + intros pre e post H He. exists t1. split; [reflexivity|].
      exact (prefix_before after_toolchain_step t1 _ pre e post H Hn He).
    + intros t1' e H. simplify_eq.
    + intros p Hp. exfalso.
      apply elem_of_app in Hp as [Hp|Hp];
        [exact (no_spawn_in _ _ Hn' Hp) | exact (no_spawn_in _ _ Hr Hp)].
    + intros pre e post H He. exists t1. split; [reflexivity|].
      exact (prefix_before after_toolchain_step t1 _ pre e post H Hn He).
    + intros t1' e H. simplify_eq.
  - pose proof (toolchain_step_no_spawn _ Hn) as Hn'.
    intros H. simplify_eq. split; [|split].
    + intros p Hp. destruct (no_spawn_in _ _ Hn' Hp).
    + intros pre e post -> He. exfalso.
      apply forallb_not_elem in Hn. congruence.
    + intros t1' e H. simplify_eq. auto.
Qed.

Lemma spawn_only_after_both_checks_witness :
  (forall p, Spawn p ∈ ready_trace env_example ->
     exists t1 t2,
       checkForNightly w_ready [] = (t1, Returned tt)
       /\ checkForRls w_ready ([] ++ t1) = (t2, Returned tt)
       /\ ready_trace env_example = t1 ++ t2 ++ [Spawn p]
       /\ Returned (rls_process env_example) = Returned p)
  /\ (forall pre e post,
        ready_trace env_example = pre ++ e :: post ->
        after_toolchain_step e = true ->
        exists t1, checkForNightly w_ready [] = (t1, Returned tt)
                   /\ t1 `prefix_of` pre)
  /\ (forall t1 e, checkForNightly w_ready [] = (t1, Threw e) ->
        ready_trace env_example = t1
        /\ Returned (rls_process env_example) = Threw e).
Proof.
  apply (spawn_only_after_both_checks w_ready env_example []).
  reflexivity.
Defined.

(** Everything is there: two probes, no prompt, no install, then the
    spawn. *)
Example runRlsViaRustup_when_ready :
  runRlsViaRustup w_ready env_example []
  = (ready_trace env_example, Returned (rls_process env_example)).
Proof. reflexivity. Qed.

(** rustup is missing: the first probe throws and nothing else runs. *)
Example runRlsViaRustup_without_rustup :
  runRlsViaRustup w_no_rustup env_example []
  = ([ExecChildProcess cmd_toolchain_list;
      ConsoleLog (LogError e_not_found);
      ShowErrorMessage
        (js "Rustup not available. Install from https://www.rustup.rs/")],
     Threw e_not_found).
Proof. reflexivity. Qed.

(** C5. When the toolchain probe answers "absent" and the prompt resolves to
    anything but "Yes", the run throws an error without message, and it has
    run neither the component probe nor any install command, nor spawned
    the server. *)
Theorem declined_toolchain_offer_aborts (w : world)
        (env : gmap jsstring jsstring) (h t1 : list event) :
  hasNightlyToolchain w h = (t1, Returned false) ->
  clicked_item w (h ++ t1)
               (js "Nightly toolchain not installed. Install?") [js "Yes"]
  <> Some (js "Yes") ->
  exists t,
    runRlsViaRustup w env h = (t, Threw (new_Error []))
    /\ t = [ExecChildProcess cmd_toolchain_list; toolchain_offer]
    /\ (cmd_component_list ∉ commands t)
    /\ forallb (fun c => negb (is_install_command c)) (commands t) = true
    /\ spawned t = [].
Proof.
  intros Hprobe Hclick.
  assert (t1 = [ExecChildProcess cmd_toolchain_list]
          /\ exists r, run_command w h cmd_toolchain_list = inr r
                       /\ (indexOf (stdout r) (js "nightly") >? -1) = false)
    as (-> & r & Hrun & Habsent).
  { revert Hprobe. run_program. next_answer; intros H; simplify_eq.
    split; [reflexivity|]. eexists. split; [reflexivity|]. assumption. }
  eexists. split; [|split; [reflexivity|]].
  - run_program. rewrite Hrun, Habsent. cbn [app].
    rewrite bool_decide_false by exact Hclick. reflexivity.
  - split; [|split; reflexivity].
    intros Hin.
    apply (list_elem_of_singleton cmd_component_list cmd_toolchain_list)
      in Hin.
    vm_compute in Hin. discriminate.
Qed.

Lemma declined_toolchain_offer_aborts_witness :
  exists t,
    runRlsViaRustup w_declined env_example [] = (t, Threw (new_Error []))
    /\ t = [ExecChildProcess cmd_toolchain_list; toolchain_offer]
    /\ (cmd_component_list ∉ commands t)
    /\ forallb (fun c => negb (is_install_command c)) (commands t) = true
    /\ spawned t = [].
Proof.
  apply (declined_toolchain_offer_aborts w_declined env_example []
           [ExecChildProcess cmd_toolchain_list]).
  - reflexivity.
  - discriminate.
Defined.

(** C9. When the run succeeds, the one process it has spawned, as the last
    thing it did, is [rustup run nightly rls] with the environment of the
    caller, entry for entry. *)
Theorem spawn_env_unchanged (w : world) (env : gmap jsstring jsstring)
        (h t : list event) (p : ChildProcess) :
  runRlsViaRustup w env h = (t, Returned p) ->
  spawn_env p = env
  /\ (forall k, spawn_env p !! k = env !! k)
  /\ p = rls_process env
  /\ spawned t = [p]
  /\ last t = Some (Spawn p).
Proof.
  rewrite runRlsViaRustup_run.
  pose proof (checkForNightly_events w h) as Hn.
  destruct (checkForNightly w h) as [t1 [[]|e1]]; simpl in Hn;
    [|discriminate].
  apply toolchain_step_no_spawn, spawned_none in Hn.
  pose proof (checkForRls_events w (h ++ t1)) as Hr.
  destruct (checkForRls w (h ++ t1)) as [t2 [[]|e2]]; simpl in Hr;
    [|discriminate].
  apply spawned_none in Hr.
  intros H. simplify_eq. repeat split.
  - unfold spawned in *. rewrite !omap_app, Hn, Hr. reflexivity.
  - rewrite !app_assoc. apply last_snoc.
Qed.

Lemma spawn_env_unchanged_witness :
  spawn_env (rls_process env_example) = env_example
  /\ (forall k, spawn_env (rls_process env_example) !! k = env_example !! k)
  /\ rls_process env_example = rls_process env_example
  /\ spawned (ready_trace env_example) = [rls_process env_example]
  /\ last (ready_trace env_example) = Some (Spawn (rls_process env_example)).
Proof.
  apply (spawn_env_unchanged w_ready env_example []).
  reflexivity.
Defined.


(** ** Whole runs: every path of the bootstrap *)

(** Decide the next test of the program: an answer of the world or the
    verdict of a probe. *)
Ltac next_branch :=
  match goal with
  | |- context [run_command ?w ?h ?c] =>
      let E := fresh "Hrun" in destruct (run_command w h c) eqn:E
  | |- context [if ?b then _ else _] =>
      let E := fresh "Hif" in destruct b eqn:E
  end; cbn [app].

Ltac use_answers :=
  flatten_history;
  repeat match goal with
         | H : run_command _ _ _ = _ |- _ => rewrite H
         end.

(** Walk every path of a program whose run is a hypothesis of the goal. *)
Ltac every_path :=
  run_program; repeat next_branch;
  let H := fresh in intros H; simplify_eq.


Ltac answers_of_clicks :=
  repeat match goal with
         | H : bool_decide _ = true |- _ => apply bool_decide_eq_true in H
         | H : bool_decide _ = false |- _ => apply bool_decide_eq_false in H
         end.

(** X2. A bootstrap stops at the first command that fails: then it throws
    and has shown exactly one error message.  When no command failed it has
    shown none; if it throws all the same, an offer was turned down: the
    error has an empty message and the offer is the last thing that
    happened. *)
Theorem bootstrap_stops_at_first_failure (w : world)
        (env : gmap jsstring jsstring) (h t : list event)
        (r : outcome ChildProcess) :
  runRlsViaRustup w env h = (t, r) ->
  (all_succeeded (attempts w h t) = true
   /\ diagnostics t = []
   /\ (forall e, r = Threw e ->
         e = new_Error []
         /\ exists m items, last t = Some (ShowInformationMessage m items)))
  \/ (failed_last (attempts w h t) = true
      /\ (exists e, r = Threw e)
      /\ length (diagnostics t) = 1%nat).
Proof.
  every_path; cbn [attempts app]; use_answers; cbn [succeeded];
    first
      [ right; split; [reflexivity|]; split; [eexists|]; reflexivity
      | left; split; [reflexivity|]; split; [reflexivity|];
        intros e' He'; simplify_eq;
        (split; [reflexivity | do 2 eexists; reflexivity]) ].
Qed.

(** X3. Where a bootstrap throws the error of a command: the one command
    that failed is the last one, and the error thrown is the error of the
    command runner, unless the command added a component, in which case it
    is the error naming that component.  With no failed command the error
    is the empty one of a declined offer. *)
Theorem bootstrap_error_provenance (w : world)
        (env : gmap jsstring jsstring) (h t : list event) (e : JsError) :
  runRlsViaRustup w env h = (t, Threw e) ->
  (failures w h t = [] /\ e = new_Error [])
  \/ (exists c, failures w h t = [(c, e)]
        /\ last (commands t) = Some c
        /\ (c = cmd_toolchain_list \/ c = cmd_toolchain_install
            \/ c = cmd_component_list))
  \/ (exists x e0, failures w h t = [(cmd_component_add x, e0)]
        /\ last (commands t) = Some (cmd_component_add x)
        /\ x ∈ install_order /\ e = install_error x).
Proof.
  every_path; cbn [failures app]; use_answers; cbn [app];
    first
      [ left; split; reflexivity
      | right; left; eexists; split; [reflexivity|];
        split; [reflexivity|]; auto
      | right; right; do 2 eexists; split; [reflexivity|];
        split; [reflexivity|]; split; [|reflexivity];
        unfold install_order; repeat constructor ].
Qed.

Ltac refute_elem H :=
  match type of H with
  | ?P =>
      let Hd := fresh in
      assert (Hd : bool_decide P = false) by (vm_compute; reflexivity);
      apply bool_decide_eq_false in Hd; destruct (Hd H)
  end.

Ltac prove_elem :=
  match goal with
  | |- ?P => apply (proj1 (bool_decide_eq_true P)); vm_compute; reflexivity
  end.

(** X4. No install without consent.  A bootstrap runs the install of the
    toolchain only after the user has answered "Yes" to the offer that
    follows the listing, and it adds a component only after the user has
    answered "Yes" to the offer of the components, which comes before the
    command in the trace. *)
Theorem installs_need_consent (w : world) (env : gmap jsstring jsstring)
        (h t : list event) (r : outcome ChildProcess) :
  runRlsViaRustup w env h = (t, r) ->
  (cmd_toolchain_install ∈ commands t ->
   [ExecChildProcess cmd_toolchain_list; toolchain_offer] `prefix_of` t
   /\ clicked_item w (h ++ [ExecChildProcess cmd_toolchain_list])
                   (js "Nightly toolchain not installed. Install?")
                   [js "Yes"]
      = Some (js "Yes"))
  /\ (forall c, c ∈ install_order -> cmd_component_add c ∈ commands t ->
      exists pre post,
        t = pre ++ component_offer :: post
        /\ clicked_item w (h ++ pre) (js "RLS not installed. Install?")
                        [js "Yes"]
           = Some (js "Yes")
        /\ cmd_component_add c ∈ commands post).
Proof.
  every_path; answers_of_clicks; flatten_history; (split; [intros Hin|]).
  all: try (refute_elem Hin).
  all: try (split; [eexists; reflexivity | assumption]).
  all: intros c Hc Hin; unfold install_order in Hc;
    repeat (apply elem_of_cons in Hc as [-> | Hc]);
    try (inversion Hc; fail); try (refute_elem Hin).
  all: do 2 eexists; (split; [|split; [eassumption|]]);
    [reflexivity | prove_elem].
Qed.

(** X5. During a bootstrap the starts and the stops of the spinner take
    turns and the spinner is stopped when the run ends; the commands run
    while it is shown are the install commands, the probes run without
    it. *)
Theorem bootstrap_spinner_discipline (w : world)
        (env : gmap jsstring jsstring) (h t : list event)
        (r : outcome ChildProcess) :
  runRlsViaRustup w env h = (t, r) ->
  spinner_alternates false t = true
  /\ commands_under_spinner false t
     = List.filter is_install_command (commands t).
Proof. every_path; split; reflexivity. Qed.

(** X6. When the toolchain check has succeeded, the component probe answers
    "absent" and the prompt resolves to anything but "Yes", the bootstrap
    throws an error without message right after the offer: it has added no
    component, shown no error message and spawned nothing. *)
Theorem declined_component_offer_aborts (w : world)
        (env : gmap jsstring jsstring) (h t0 t1 : list event) :
  checkForNightly w h = (t0, Returned tt) ->
  hasRlsComponents w (h ++ t0) = (t1, Returned false) ->
  clicked_item w (h ++ t0 ++ t1) (js "RLS not installed. Install?")
               [js "Yes"]
  <> Some (js "Yes") ->
  runRlsViaRustup w env h
  = (t0 ++ [ExecChildProcess cmd_component_list; component_offer],
     Threw (new_Error []))
  /\ spawned (t0 ++ [ExecChildProcess cmd_component_list; component_offer])
     = [].
Proof.
  intros Hn Hprobe Hclick.
  assert (t1 = [ExecChildProcess cmd_component_list]) as ->.
  { revert Hprobe. run_program. next_branch; intros H; simplify_eq.
    reflexivity. }
  split.
  - rewrite runRlsViaRustup_run, Hn.
    cbv [checkForRls mbind M_bind bind showInformationMessage throw].
    rewrite Hprobe. rewrite <- app_assoc.
    rewrite bool_decide_false by exact Hclick. reflexivity.
  - pose proof (checkForNightly_events w h) as He. rewrite Hn in He.
    cbn [fst] in He. apply toolchain_step_no_spawn, spawned_none in He.
    unfold spawned in *. rewrite omap_app, He. reflexivity.
Qed.

Lemma declined_component_offer_aborts_witness :
  runRlsViaRustup w_components_declined env_example []
  = ([ExecChildProcess cmd_toolchain_list]
     ++ [ExecChildProcess cmd_component_list; component_offer],
     Threw (new_Error []))
  /\ spawned ([ExecChildProcess cmd_toolchain_list]
              ++ [ExecChildProcess cmd_component_list; component_offer])
     = [].
Proof.
  apply (declined_component_offer_aborts w_components_declined env_example
           [] [ExecChildProcess cmd_toolchain_list]
           [ExecChildProcess cmd_component_list]).
  - reflexivity.
  - reflexivity.
  - discriminate.
Defined.

(** X7. When the listing of the toolchains contains "nightly" and the
    listing of the components shows the three components, the bootstrap
    runs the two listings and spawns the server: no prompt, no spinner, no
    install, no error message. *)
Theorem ready_bootstrap_only_probes (w : world)
        (env : gmap jsstring jsstring) (h : list event)
        (r1 r2 : ExecResult) :
  run_command w h cmd_toolchain_list = inr r1 ->
  contains (stdout r1) (js "nightly") ->
  run_command w (h ++ [ExecChildProcess cmd_toolchain_list])
              cmd_component_list = inr r2 ->
  components_present (stdout r2) ->
  runRlsViaRustup w env h
  = ([ExecChildProcess cmd_toolchain_list;
      ExecChildProcess cmd_component_list;
      Spawn (rls_process env)],
     Returned (rls_process env)).
Proof.
  intros H1 Hn H2 Hc.
  apply indexOf_found in Hn. apply components_listed_spec in Hc.
  run_program. rewrite H1, Hn. cbn [app]. rewrite H2, Hc. reflexivity.
Qed.

Lemma ready_bootstrap_only_probes_witness :
  runRlsViaRustup w_ready env_example []
  = ([ExecChildProcess cmd_toolchain_list;
      ExecChildProcess cmd_component_list;
      Spawn (rls_process env_example)],
     Returned (rls_process env_example)).
Proof.
  apply (ready_bootstrap_only_probes w_ready env_example []
           {| stdout := listing_toolchains; stderr := [] |}
           {| stdout := listing_components; stderr := [] |}).
  - reflexivity.
  - exists (js "stable-x86_64" ++ [LF]), (js "-x86_64 (default)" ++ [LF]).
    reflexivity.
  - reflexivity.
  - apply components_listed_spec. reflexivity.
Defined.

(** X8. [tryFn] never throws, for any component name: it runs the one add
    command, and its result is [null] exactly when the command succeeded;
    otherwise it is the error naming the component, the error of the
    command runner is dropped, and one error message has been shown. *)
Theorem tryFn_never_throws (w : world) (component : jsstring)
        (h : list event) :
  exists t res,
    tryFn w component h = (t, Returned res)
    /\ commands t = [cmd_component_add component]
    /\ (res = None
        <-> succeeded (run_command w h (cmd_component_add component)) = true)
    /\ (res = None -> diagnostics t = [])
    /\ (forall err, res = Some err ->
          err = install_error component
          /\ diagnostics t
             = [js "Could not install RLS component (" ++ component
                ++ js ")"]).
Proof.
  unfold_program. fold (cmd_component_add component).
  destruct (run_command w h (cmd_component_add component)); cbn [app];
    do 2 eexists; (split; [reflexivity|]); (split; [reflexivity|]);
    cbn [succeeded]; repeat split; try discriminate; try reflexivity;
    intros; simplify_eq; reflexivity.
Qed.

(** X9. [rustupUpdate] runs the one command [rustup update]; it shows no
    error message, asks nothing and spawns nothing.  It stops the spinner
    with the request to restart exactly when the command succeeded and its
    output does not contain "unchanged", and with the message of an error
    exactly when the command failed. *)
Theorem rustupUpdate_report (w : world) (h : list event) :
  let t := (rustupUpdate w h).1 in
  let answer :=
    run_command w (h ++ [StartSpinner (js "Updating RLS...")]) cmd_update in
  commands t = [cmd_update]
  /\ diagnostics t = [] /\ prompts t = [] /\ spawned t = []
  /\ (spinner_stops t
      = [js "Up to date. Restart extension for changes to take effect."]
      <-> exists r, answer = inr r /\ ~ contains (stdout r) (js "unchanged"))
  /\ (spinner_stops t = [js "Up to date."]
      <-> exists r, answer = inr r /\ contains (stdout r) (js "unchanged"))
  /\ (spinner_stops t = [js "An error occurred whilst trying to update."]
      <-> exists e, answer = inl e).
Proof.
  cbv zeta. run_program. next_branch; [|next_branch]; cbn [fst];
    repeat (split; [reflexivity|]).
  - split; [|split].
    + split; [intros H; vm_compute in H; discriminate|].
      intros (r & Hr & _). discriminate.
    + split; [intros H; vm_compute in H; discriminate|].
      intros (r & Hr & _). discriminate.
    + split; eauto.
  - apply indexOf_found in Hif. split; [|split].
    + split; [intros H; vm_compute in H; discriminate|].
      intros (r & Hr & Hn). simplify_eq. contradiction.
    + split; eauto.
    + split; [intros H; vm_compute in H; discriminate|].
      intros (x & Hx). discriminate.
  - assert (~ contains (stdout e) (js "unchanged")) as Hn.
    { rewrite <- indexOf_found. congruence. }
    split; [|split].
    + split; eauto.
    + split; [intros H; vm_compute in H; discriminate|].
      intros (r & Hr & Hc). simplify_eq. contradiction.
    + split; [intros H; vm_compute in H; discriminate|].
      intros (x & Hx). discriminate.
Qed.

(** ** The component probe and the shape of the listing *)

Section ListingFacts.

Abbreviation plain_line := (Forall (fun c => is_line_terminator c = false)).

Lemma js_lines_one (l : jsstring) : plain_line l -> js_lines l = [l].
Proof.
  induction l as [|c l IH]; intros H; [reflexivity|].
  apply Forall_cons in H as [Hc Hl]. simpl. rewrite Hc, (IH Hl). reflexivity.
Qed.

Lemma js_lines_terminated (l s : jsstring) (c : code_unit) :
  plain_line l -> is_line_terminator c = true ->
  js_lines (l ++ c :: s) = l :: js_lines s.
Proof.
  intros Hl Hc. induction l as [|x l IH]; simpl.
  - rewrite Hc. reflexivity.
  - apply Forall_cons in Hl as [Hx Hl]. rewrite Hx, (IH Hl). reflexivity.
Qed.

(** Splitting what was joined with line feeds gives the lines back. *)
Lemma js_lines_join_LF (ls : list jsstring) :
  ls <> [] -> Forall plain_line ls -> js_lines (join_lines [LF] ls) = ls.
Proof.
  induction ls as [|l ls IH]; intros Hne Hall; [congruence|].
  apply Forall_cons in Hall as [Hl Hall]. destruct ls as [|l' ls].
  - simpl. apply js_lines_one. assumption.
  - change (join_lines [LF] (l :: l' :: ls))
      with (l ++ LF :: join_lines [LF] (l' :: ls)).
    rewrite js_lines_terminated by (assumption || reflexivity).
    rewrite IH by (assumption || discriminate). reflexivity.
Qed.

(** With carriage return and line feed between them, the lines come back
    with empty lines in between. *)
Lemma js_lines_join_CRLF (ls : list jsstring) (x : jsstring) :
  ls <> [] -> Forall plain_line ls -> x <> [] ->
  (x ∈ js_lines (join_lines [CR; LF] ls) <-> x ∈ ls).
Proof.
  intros Hne Hall Hx. induction ls as [|l ls IH]; [congruence|].
  apply Forall_cons in Hall as [Hl Hall]. destruct ls as [|l' ls].
  - simpl. rewrite js_lines_one by assumption. reflexivity.
  - change (join_lines [CR; LF] (l :: l' :: ls))
      with (l ++ CR :: LF :: join_lines [CR; LF] (l' :: ls)).
    rewrite js_lines_terminated by (assumption || reflexivity).
    change (js_lines (LF :: ?s)) with ([] :: js_lines s).
    rewrite !elem_of_cons, IH by (assumption || discriminate).
    rewrite !elem_of_cons. intuition congruence.
Qed.

Lemma installed_line_not_empty (name line : jsstring) :
  line_shows_installed name line -> line <> [].
Proof.
  intros (mid & [-> | ->]) H;
    apply app_eq_nil in H as [_ H]; apply app_eq_nil in H as [_ H];
    vm_compute in H; discriminate.
Qed.

Lemma components_listed_mono (a b : jsstring) :
  (forall x, x <> [] -> x ∈ js_lines a -> x ∈ js_lines b) ->
  components_listed a = true -> components_listed b = true.
Proof.
  intros Hsub Ha. apply components_listed_spec.
  apply components_listed_spec in Ha.
  intros name Hin. destruct (Ha name Hin) as (line & Hl & Hs).
  exists line. split; [|assumption].
  apply Hsub; [|assumption]. eapply installed_line_not_empty; eauto.
Qed.

End ListingFacts.

(** X10. Only the set of lines of the listing counts for the component
    probe: when every line of a listing occurs in a second one, in whatever
    order and among whatever other lines, and the components are present in
    the first, they are present in the second. *)
Theorem component_probe_ignores_order (ls ls' : list jsstring) :
  Forall (Forall (fun c => is_line_terminator c = false)) ls ->
  Forall (Forall (fun c => is_line_terminator c = false)) ls' ->
  (forall l, l ∈ ls -> l ∈ ls') ->
  components_listed (join_lines [LF] ls) = true ->
  components_listed (join_lines [LF] ls') = true.
Proof.
  intros Hp Hp' Hsub. destruct ls as [|l0 ls]; [discriminate|].
  assert (ls' <> []) as Hne'.
  { intros ->. specialize (Hsub l0 ltac:(left)). inversion Hsub. }
  apply components_listed_mono. intros x _.
  rewrite !js_lines_join_LF by (assumption || discriminate). apply Hsub.
Qed.

(** X11. Line ends of carriage return and line feed give the same verdict
    of the component probe as line feeds alone. *)
Theorem component_probe_ignores_CR (ls : list jsstring) :
  Forall (Forall (fun c => is_line_terminator c = false)) ls ->
  components_listed (join_lines [CR; LF] ls)
  = components_listed (join_lines [LF] ls).
Proof.
  intros Hp. destruct ls as [|l0 ls]; [reflexivity|].
  assert (forall x, x <> [] ->
            (x ∈ js_lines (join_lines [CR; LF] (l0 :: ls))
             <-> x ∈ js_lines (join_lines [LF] (l0 :: ls)))) as Hsame.
  { intros x Hx. rewrite js_lines_join_CRLF by (assumption || discriminate).
    rewrite js_lines_join_LF by (assumption || discriminate). reflexivity. }
  destruct (components_listed (join_lines [LF] (l0 :: ls))) eqn:E.
  - eapply components_listed_mono; [|exact E]. intros x Hx. apply Hsame, Hx.
  - destruct (components_listed (join_lines [CR; LF] (l0 :: ls))) eqn:E';
      [|reflexivity].
    rewrite <- E. symmetry.
    eapply components_listed_mono; [|exact E']. intros x Hx. apply Hsame, Hx.
Qed.

Lemma component_probe_ignores_order_witness :
  components_listed (join_lines [LF] lines_shuffled) = true.
Proof.
  apply (component_probe_ignores_order lines_three lines_shuffled).
  - vm_compute. repeat constructor.
  - vm_compute. repeat constructor.
  - intros l Hl. unfold lines_three in Hl.
    repeat (apply elem_of_cons in Hl as [-> | Hl]; [prove_elem|]).
    inversion Hl.
  - reflexivity.
Defined.

Lemma component_probe_ignores_CR_witness :
  components_listed (join_lines [CR; LF] lines_shuffled)
  = components_listed (join_lines [LF] lines_shuffled).
Proof.
  apply (component_probe_ignores_CR lines_shuffled).
  vm_compute. repeat constructor.
Defined.

Lemma installed_lines_differ (n1 n2 l : jsstring) (i : nat) :
  line_shows_installed n1 l -> line_shows_installed n2 l ->
  (i < length n1)%nat -> (i < length n2)%nat -> n1 !! i <> n2 !! i -> False.
Proof.
  intros (m1 & H1) (m2 & H2) L1 L2 Hne. apply Hne.
  assert (l !! i = n1 !! i) as <-.
  { destruct H1 as [-> | ->]; apply lookup_app_l; assumption. }
  destruct H2 as [-> | ->]; apply lookup_app_l; assumption.
Qed.

Lemma components_present_three_lines (out : jsstring) :
  components_present out -> (3 <= length (js_lines out))%nat.
Proof.
  intros H.
  destruct (H (js "rls")) as (l1 & Hin1 & Hs1); [prove_elem|].
  destruct (H (js "rust-analysis")) as (l2 & Hin2 & Hs2); [prove_elem|].
  destruct (H (js "rust-src")) as (l3 & Hin3 & Hs3); [prove_elem|].
  assert (l1 <> l2) as H12.
  { intros ->. apply (installed_lines_differ _ _ _ 1 Hs1 Hs2);
      vm_compute; (lia || discriminate). }
  assert (l1 <> l3) as H13.
  { intros ->. apply (installed_lines_differ _ _ _ 1 Hs1 Hs3);
      vm_compute; (lia || discriminate). }
  assert (l2 <> l3) as H23.
  { intros ->. apply (installed_lines_differ _ _ _ 5 Hs2 Hs3);
      vm_compute; (lia || discriminate). }
  assert (NoDup [l1; l2; l3]) as Hnd.
  { repeat (apply NoDup_cons; split);
      rewrite ?not_elem_of_cons, ?elem_of_nil; try tauto. apply NoDup_nil_2. }
  apply (submseteq_length [l1; l2; l3]).
  apply NoDup_submseteq; [assumption|].
  intros x Hx. repeat (apply elem_of_cons in Hx as [-> | Hx]; [assumption|]).
  inversion Hx.
Qed.

(** X12. No line of a listing serves two of the required components: on an
    output of fewer than three lines, the empty output among them, the
    component probe answers "absent". *)
Theorem component_probe_needs_three_lines (w : world) (h : list event)
        (r : ExecResult) :
  run_command w h cmd_component_list = inr r ->
  (length (js_lines (stdout r)) < 3)%nat ->
  hasRlsComponents w h
  = ([ExecChildProcess cmd_component_list], Returned false).
Proof.
  intros Hrun Hlen. run_program. rewrite Hrun. cbn [app].
  destruct (components_listed (stdout r)) eqn:E; [|reflexivity].
  apply components_listed_spec, components_present_three_lines in E. lia.
Qed.

Lemma component_probe_needs_three_lines_witness :
  hasRlsComponents w_fresh []
  = ([ExecChildProcess cmd_component_list], Returned false).
Proof.
  apply (component_probe_needs_three_lines w_fresh []
           {| stdout := []; stderr := [] |}).
  - reflexivity.
  - vm_compute. lia.
Defined.

(** ** The runs of two worlds, as instances of the theorems on whole runs *)

Example runRlsViaRustup_fresh :
  runRlsViaRustup w_fresh env_example []
  = (trace_fresh env_example, Returned (rls_process env_example)).
Proof. reflexivity. Qed.

Example runRlsViaRustup_src_fails :
  runRlsViaRustup w_src_fails env_example []
  = (trace_src_fails, Threw (install_error (js "rust-src"))).
Proof. reflexivity. Qed.


Lemma bootstrap_stops_at_first_failure_witness :
  (all_succeeded (attempts w_src_fails [] trace_src_fails) = true
   /\ diagnostics trace_src_fails = []
   /\ (forall e, @Threw ChildProcess (install_error (js "rust-src"))
                  = Threw e ->
         e = new_Error []
         /\ exists m items,
              last trace_src_fails = Some (ShowInformationMessage m items)))
  \/ (failed_last (attempts w_src_fails [] trace_src_fails) = true
      /\ (exists e, @Threw ChildProcess (install_error (js "rust-src"))
                    = Threw e)
      /\ length (diagnostics trace_src_fails) = 1%nat).
Proof.
  apply (bootstrap_stops_at_first_failure w_src_fails env_example []).
  reflexivity.
Defined.

Lemma bootstrap_error_provenance_witness :
  (failures w_src_fails [] trace_src_fails = []
   /\ install_error (js "rust-src") = new_Error [])
  \/ (exists c,
         failures w_src_fails [] trace_src_fails
         = [(c, install_error (js "rust-src"))]
         /\ last (commands trace_src_fails) = Some c
         /\ (c = cmd_toolchain_list \/ c = cmd_toolchain_install
             \/ c = cmd_component_list))
  \/ (exists x e0,
         failures w_src_fails [] trace_src_fails
         = [(cmd_component_add x, e0)]
         /\ last (commands trace_src_fails) = Some (cmd_component_add x)
         /\ x ∈ install_order
         /\ install_error (js "rust-src") = install_error x).
Proof.
  apply (bootstrap_error_provenance w_src_fails env_example []).
  reflexivity.
Defined.

Lemma installs_need_consent_witness :
  (cmd_toolchain_install ∈ commands trace_src_fails ->
   [ExecChildProcess cmd_toolchain_list; toolchain_offer]
     `prefix_of` trace_src_fails
   /\ clicked_item w_src_fails ([] ++ [ExecChildProcess cmd_toolchain_list])
                   (js "Nightly toolchain not installed. Install?")
                   [js "Yes"]
      = Some (js "Yes"))
  /\ (forall c, c ∈ install_order ->
        cmd_component_add c ∈ commands trace_src_fails ->
        exists pre post,
          trace_src_fails = pre ++ component_offer :: post
          /\ clicked_item w_src_fails ([] ++ pre)
                          (js "RLS not installed. Install?") [js "Yes"]
             = Some (js "Yes")
          /\ cmd_component_add c ∈ commands post).
Proof.
  apply (installs_need_consent w_src_fails env_example [] trace_src_fails
           (Threw (install_error (js "rust-src")))).
  reflexivity.
Defined.

Lemma bootstrap_spinner_discipline_witness :
  spinner_alternates false (trace_fresh env_example) = true
  /\ commands_under_spinner false (trace_fresh env_example)
     = List.filter is_install_command (commands (trace_fresh env_example)).
Proof.
  apply (bootstrap_spinner_discipline w_fresh env_example [] _
           (Returned (rls_process env_example))).
  reflexivity.
Defined.

(** ** The offers *)

(** X13. An offer is made exactly when the probe before it has answered
    "absent": [checkForNightly] asks its question when the listing of the
    toolchains came back without "nightly", [checkForRls] asks its question
    when the listing of the components came back without one of the three
    components; otherwise neither asks anything. *)
Theorem offers_exactly_when_absent (w : world) (h : list event) :
  ((exists r, run_command w h cmd_toolchain_list = inr r
              /\ ~ contains (stdout r) (js "nightly"))
   /\ prompts (checkForNightly w h).1
      = [js "Nightly toolchain not installed. Install?"]
   \/ ~ (exists r, run_command w h cmd_toolchain_list = inr r
                   /\ ~ contains (stdout r) (js "nightly"))
      /\ prompts (checkForNightly w h).1 = [])
  /\ ((exists r, run_command w h cmd_component_list = inr r
                 /\ ~ components_present (stdout r))
      /\ prompts (checkForRls w h).1 = [js "RLS not installed. Install?"]
      \/ ~ (exists r, run_command w h cmd_component_list = inr r
                      /\ ~ components_present (stdout r))
         /\ prompts (checkForRls w h).1 = []).
Proof.
  split.
  - destruct (run_command w h cmd_toolchain_list) as [e|r] eqn:Hrun.
    + right. split; [intros (r & Hr & _); discriminate|].
      run_program. rewrite Hrun. reflexivity.
    + destruct (indexOf (stdout r) (js "nightly") >? -1) eqn:Hif.
      * right. split.
        -- intros (r' & Hr & Hn). simplify_eq.
           apply Hn, indexOf_found. assumption.
        -- run_program. rewrite Hrun, Hif. reflexivity.
      * left. split.
        -- exists r. split; [reflexivity|].
           rewrite <- indexOf_found. congruence.
        -- run_program. rewrite Hrun, Hif. cbn [app].
           repeat next_branch; reflexivity.
  - destruct (run_command w h cmd_component_list) as [e|r] eqn:Hrun.
    + right. split; [intros (r & Hr & _); discriminate|].
      run_program. rewrite Hrun. reflexivity.
    + destruct (components_listed (stdout r)) eqn:Hif.
      * right. split.
        -- intros (r' & Hr & Hn). simplify_eq.
           apply Hn, components_listed_spec. assumption.
        -- run_program. rewrite Hrun, Hif. reflexivity.
      * left. split.
        -- exists r. split; [reflexivity|].
           rewrite <- components_listed_spec. congruence.
        -- run_program. rewrite Hrun, Hif. cbn [app].
           repeat next_branch; reflexivity.
Qed.
